(** * TaxSage-AI: the FY 2024-25 income-tax engine of [src/lib/taxUtils.ts]

    A shallow embedding of [calculateSlabTax], [calculateSurcharge],
    [calculateTaxPayableInternal] and [calculateTaxPayable], together with
    the static tables they read, and the properties the specification
    states about them.  The callers of the engine and the calculators of
    the pages are embedded too: the deduction estimators of the report
    page and of the suggestions flow, the 80C, 80D and HRA calculators of
    the deductions page and the rate calculator of the surcharge page.

    Numbers.  The TypeScript code computes on [number].  Here a finite
    number is an exact rational ([Q]); [Infinity], which only occurs as the
    upper bound of the last slab and of the last surcharge tier, is a
    separate constructor of [Num].  Equality of amounts is [Qeq] ([==]).

    Recursion.  [calculateSurcharge] calls [calculateTaxPayableInternal],
    which calls [calculateSurcharge].  The embedding makes the call depth
    explicit: [calculateTaxPayableInternal] takes a budget of nested calls
    and fails with [None] when it is exhausted, and every computation also
    reports how many nested tax computations it performed. *)

From Stdlib Require Import QArith Qminmax Qround Lqa ZArith Lia List Bool.
From Stdlib Require Import Ascii String Permutation.
Import ListNotations.
Open Scope string_scope.
Open Scope Q_scope.

(** ** Numbers *)

Inductive Num : Type :=
| Fin (q : Q)
| Infinity.

(** [x <= n] for a finite [x]. *)
Definition leNum (x : Q) (n : Num) : bool :=
  match n with
  | Fin q => Qle_bool x q
  | Infinity => true
  end.

(** [Math.min(x, n)] for a finite [x]. *)
Definition minNum (x : Q) (n : Num) : Q :=
  match n with
  | Fin q => Qmin x q
  | Infinity => x
  end.

Definition isInfinity (n : Num) : bool :=
  match n with
  | Fin _ => false
  | Infinity => true
  end.

(** [a < b] and [a > b] as the code tests them. *)
Definition Qlt_bool (a b : Q) : bool := negb (Qle_bool b a).
Definition Qgt_bool (a b : Q) : bool := Qlt_bool b a.

(** JavaScript truthiness of an optional numeric field. *)
Definition truthy (o : option Q) : bool :=
  match o with
  | Some q => negb (Qeq_bool q 0)
  | None => false
  end.

(** [Math.round]: the nearest integer, halves going up. *)
Definition round (x : Q) : Q := inject_Z (Qfloor (x + 0.5)).

(** ** Data model *)

Record Slab : Type := mkSlab {
  rangeMin : Q;
  rangeMax : Num;
  rate : Q
}.

Record TaxRegimeData : Type := mkTaxRegimeData {
  slabs : list Slab;
  basicExemption : Q;
  rebateLimit : option Q;
  rebateAmount : option Q;
  standardDeduction : option Q
}.

Record FiscalYearTaxData : Type := mkFiscalYearTaxData {
  newRegime : TaxRegimeData;
  oldRegime : TaxRegimeData
}.

(** A row of the surcharge table; its field [rate] is [surchargeRate] here,
    [rate] being taken by [Slab]. *)
Record SurchargeRate : Type := mkSurchargeRate {
  incomeLimit : Num;
  surchargeRate : Q;
  capForSpecialIncome : Q;
  capForNewRegime : Q
}.

Inductive Regime : Type := New | Old.

Record TaxResult : Type := mkTaxResult {
  taxableIncome : Q;
  taxBeforeRebate : Q;
  rebate : Q;
  taxAfterRebate : Q;
  surcharge : Q;
  cess : Q;
  totalTax : Q;
  taxBeforeCess : Q
}.

(** ** Static tables *)

Definition surchargeRatesFY2024_25 : list SurchargeRate :=
  [ mkSurchargeRate (Fin 5000000) 0 0 0;
    mkSurchargeRate (Fin 10000000) 0.1 0.1 0.1;
    mkSurchargeRate (Fin 20000000) 0.15 0.15 0.15;
    mkSurchargeRate (Fin 50000000) 0.25 0.15 0.25;
    mkSurchargeRate Infinity 0.37 0.15 0.25 ].

Definition CESS_RATE : Q := 0.04.

Definition taxDataFY2024_25 : FiscalYearTaxData :=
  {| newRegime :=
       {| slabs :=
            [ mkSlab 0 (Fin 300000) 0;
              mkSlab 300001 (Fin 600000) 0.05;
              mkSlab 600001 (Fin 900000) 0.1;
              mkSlab 900001 (Fin 1200000) 0.15;
              mkSlab 1200001 (Fin 1500000) 0.2;
              mkSlab 1500001 Infinity 0.3 ];
          basicExemption := 300000;
          rebateLimit := Some 700000;
          rebateAmount := Some 25000;
          standardDeduction := Some 50000 |};
     oldRegime :=
       {| slabs :=
            [ mkSlab 0 (Fin 250000) 0;
              mkSlab 250001 (Fin 500000) 0.05;
              mkSlab 500001 (Fin 1000000) 0.2;
              mkSlab 1000001 Infinity 0.3 ];
          basicExemption := 250000;
          rebateLimit := Some 500000;
          rebateAmount := Some 12500;
          standardDeduction := Some 50000 |} |}.

(** ** Computations that count their nested tax computations

    [None]: the budget of nested calls ran out.  [Some (a, n)]: the value
    [a], after [n] nested invocations of [calculateTaxPayableInternal]. *)

Definition M (A : Type) : Type := option (A * nat).

Definition ret {A : Type} (a : A) : M A := Some (a, 0%nat).

Definition bind {A B : Type} (m : M A) (f : A -> M B) : M B :=
  match m with
  | None => None
  | Some (a, n) =>
      match f a with
      | None => None
      | Some (b, k) => Some (b, (n + k)%nat)
      end
  end.

(** A nested call: one more tax computation than the callee performed. *)
Definition nested {A : Type} (m : M A) : M A :=
  match m with
  | None => None
  | Some (a, n) => Some (a, S n)
  end.

Notation "x <- m ;; k" := (bind m (fun x => k))
  (at level 61, m at next level, right associativity).

(** ** calculateSlabTax *)

(** The [for] loop over the slabs, with its two [break]s; [tax] and
    [incomeProcessed] are the loop's variables. *)
Fixpoint slabLoop (taxableIncome : Q) (slabs : list Slab)
    (tax incomeProcessed : Q) : Q :=
  match slabs with
  | [] => tax
  | slab :: rest =>
      let slabMin :=
        if Qeq_bool (rangeMin slab) 0 then 0 else rangeMin slab - 1 in
      let slabMax := rangeMax slab in
      if Qle_bool taxableIncome slabMin then tax
      else
        let incomeInSlab :=
          minNum taxableIncome slabMax - Qmax incomeProcessed slabMin in
        let tax' :=
          if Qgt_bool incomeInSlab 0 then tax + incomeInSlab * rate slab
          else tax in
        match slabMax with
        | Infinity => tax'
        | Fin m =>
            if Qle_bool taxableIncome m then tax'
            else slabLoop taxableIncome rest tax' m
        end
  end.

Definition calculateSlabTax (taxableIncome : Q) (slabs : list Slab) : Q :=
  Qmax 0 (slabLoop taxableIncome slabs 0 0).

(** ** calculateSurcharge *)

(** The rate of a tier, capped for the new regime. *)
Definition cappedRate (regime : Regime) (rateInfo : SurchargeRate) : Q :=
  match regime with
  | New => Qmin (surchargeRate rateInfo) (capForNewRegime rateInfo)
  | Old => surchargeRate rateInfo
  end.

(** The first loop: the applicable rate. *)
Fixpoint rateLoop (totalIncome : Q) (regime : Regime)
    (rates : list SurchargeRate) (applicableRate : Q) : Q :=
  match rates with
  | [] => applicableRate
  | rateInfo :: rest =>
      if leNum totalIncome (incomeLimit rateInfo)
      then cappedRate regime rateInfo
      else if isInfinity (incomeLimit rateInfo)
      then rateLoop totalIncome regime rest (cappedRate regime rateInfo)
      else rateLoop totalIncome regime rest applicableRate
  end.

Section Surcharge.

(** The nested call
    [calculateTaxPayableInternal(threshold, 0, regime, taxDataFY2024_25)]. *)
Variable taxAt : Q -> Q -> Regime -> FiscalYearTaxData -> M TaxResult.

(** The second loop: marginal relief at the first threshold that grants
    it. *)
Fixpoint reliefLoop (totalIncome taxBeforeSurcharge : Q) (regime : Regime)
    (rates : list SurchargeRate) (surcharge : Q) : M Q :=
  match rates with
  | [] => ret surcharge
  | rateInfo :: rest =>
      let continue :=
        reliefLoop totalIncome taxBeforeSurcharge regime rest surcharge in
      match incomeLimit rateInfo with
      | Infinity => continue
      | Fin threshold =>
          if Qeq_bool threshold 0 then continue
          else if Qgt_bool totalIncome threshold
                  && Qle_bool totalIncome (threshold * 1.05)
          then
            r <- nested (taxAt threshold 0 regime taxDataFY2024_25) ;;
            let taxOnThreshold := taxBeforeCess r in
            let taxIncrease :=
              taxBeforeSurcharge + surcharge - taxOnThreshold in
            let incomeIncrease := totalIncome - threshold in
            if Qgt_bool taxIncrease incomeIncrease
            then
              let relief := taxIncrease - incomeIncrease in
              ret (Qmax 0 (surcharge - relief))
            else continue
          else continue
      end
  end.

Definition calculateSurcharge (totalIncome taxBeforeSurcharge : Q)
    (regime : Regime) : M Q :=
  if Qle_bool taxBeforeSurcharge 0 then ret 0
  else
    let rates := surchargeRatesFY2024_25 in
    let applicableRate := rateLoop totalIncome regime rates 0 in
    let surcharge := taxBeforeSurcharge * applicableRate in
    surcharge' <-
      reliefLoop totalIncome taxBeforeSurcharge regime rates surcharge ;;
    ret (Qmax 0 surcharge').

End Surcharge.

(** ** calculateTaxPayableInternal *)

Definition regimeDataOf (regime : Regime) (taxData : FiscalYearTaxData)
    : TaxRegimeData :=
  match regime with
  | New => newRegime taxData
  | Old => oldRegime taxData
  end.

(** Steps 1 to 4 and 6 to 7 of the function body; step 5 is the call
    [surchargeOf incomeForSurchargeRate taxAfterRebate regime]. *)
Definition taxPayableBody (surchargeOf : Q -> Q -> Regime -> M Q)
    (grossIncome totalDeductions : Q) (regime : Regime)
    (taxData : FiscalYearTaxData) : M TaxResult :=
  let regimeData := regimeDataOf regime taxData in
  let incomeAfterStdDed :=
    match standardDeduction regimeData with
    | Some sd =>
        if truthy (Some sd) && Qgt_bool grossIncome 0
        then Qmax 0 (grossIncome - sd)
        else grossIncome
    | None => grossIncome
    end in
  let taxableIncome :=
    match regime with
    | Old => Qmax 0 (incomeAfterStdDed - totalDeductions)
    | New => incomeAfterStdDed
    end in
  let taxableIncome := Qmax 0 taxableIncome in
  let taxBeforeRebate := calculateSlabTax taxableIncome (slabs regimeData) in
  let rebate :=
    match rebateLimit regimeData, rebateAmount regimeData with
    | Some limit, Some amount =>
        if truthy (Some limit) && Qle_bool taxableIncome limit
           && truthy (Some amount)
        then Qmin taxBeforeRebate amount
        else 0
    | _, _ => 0
    end in
  let taxAfterRebate := Qmax 0 (taxBeforeRebate - rebate) in
  let incomeForSurchargeRate :=
    match regime with
    | Old => grossIncome
    | New => incomeAfterStdDed
    end in
  surcharge <- surchargeOf incomeForSurchargeRate taxAfterRebate regime ;;
  let taxBeforeCess := taxAfterRebate + surcharge in
  let cess := taxBeforeCess * CESS_RATE in
  let totalTax := taxBeforeCess + cess in
  ret {| taxableIncome := taxableIncome;
         taxBeforeRebate := taxBeforeRebate;
         rebate := rebate;
         taxAfterRebate := taxAfterRebate;
         surcharge := surcharge;
         cess := cess;
         totalTax := round totalTax;
         taxBeforeCess := taxBeforeCess |}.

Fixpoint calculateTaxPayableInternal (depth : nat)
    (grossIncome totalDeductions : Q) (regime : Regime)
    (taxData : FiscalYearTaxData) : M TaxResult :=
  match depth with
  | O => None
  | S depth' =>
      taxPayableBody
        (calculateSurcharge (calculateTaxPayableInternal depth'))
        grossIncome totalDeductions regime taxData
  end.

(** ** calculateTaxPayable *)

(** The budget of nested calls given to a top-level call. *)
Definition callBudget : nat := 16.

Definition calculateTaxPayable (grossIncome totalDeductions : Q)
    (regime : Regime) : option TaxResult :=
  option_map fst
    (calculateTaxPayableInternal callBudget grossIncome totalDeductions
       regime taxDataFY2024_25).

(** ** Derived quantities used in the statements

    Everything below is read off the definitions above: the stages of
    [taxPayableBody] on the FY 2024-25 table, the closed form of the slab
    tax, and what [calculateSurcharge] returns in each of its cases. *)

(** Income after the standard deduction (step 1); both regimes of the table
    carry the same standard deduction. *)
Definition stdDedIncome (grossIncome : Q) : Q :=
  if Qgt_bool grossIncome 0 then Qmax 0 (grossIncome - 50000) else grossIncome.

(** Taxable income (step 2). *)
Definition taxableOf (grossIncome totalDeductions : Q) (regime : Regime) : Q :=
  Qmax 0 match regime with
         | Old => Qmax 0 (stdDedIncome grossIncome - totalDeductions)
         | New => stdDedIncome grossIncome
         end.

(** Slab tax on a taxable income (step 3). *)
Definition slabTaxOf (x : Q) (regime : Regime) : Q :=
  calculateSlabTax x (slabs (regimeDataOf regime taxDataFY2024_25)).

(** Rebate u/s 87A (step 4). *)
Definition rebateOf (x : Q) (regime : Regime) : Q :=
  match regime with
  | New => if Qle_bool x 700000 then Qmin (slabTaxOf x New) 25000 else 0
  | Old => if Qle_bool x 500000 then Qmin (slabTaxOf x Old) 12500 else 0
  end.

Definition afterRebate (x : Q) (regime : Regime) : Q :=
  Qmax 0 (slabTaxOf x regime - rebateOf x regime).

(** The income that selects the surcharge rate (step 5). *)
Definition surchargeBase (grossIncome : Q) (regime : Regime) : Q :=
  match regime with
  | Old => grossIncome
  | New => stdDedIncome grossIncome
  end.

(** The record returned when the surcharge call yields [s] (steps 6, 7). *)
Definition resultWith (grossIncome totalDeductions : Q) (regime : Regime)
    (s : Q) : TaxResult :=
  let x := taxableOf grossIncome totalDeductions regime in
  let t := afterRebate x regime in
  {| taxableIncome := x;
     taxBeforeRebate := slabTaxOf x regime;
     rebate := rebateOf x regime;
     taxAfterRebate := t;
     surcharge := s;
     cess := (t + s) * CESS_RATE;
     totalTax := round (t + s + (t + s) * CESS_RATE);
     taxBeforeCess := t + s |}.

(** The regime's rebate threshold and maximum rebate, as the table has
    them. *)
Definition rebateThreshold (regime : Regime) : Q :=
  match rebateLimit (regimeDataOf regime taxDataFY2024_25) with
  | Some limit => limit
  | None => 0
  end.

Definition rebateMaxAmount (regime : Regime) : Q :=
  match rebateAmount (regimeDataOf regime taxDataFY2024_25) with
  | Some amount => amount
  | None => 0
  end.

(** Closed form of the slab tax: a sum of hinges, one per rate increase. *)
Definition hinge (a x : Q) : Q := Qmax 0 (x - a).

Definition slabTaxNew (x : Q) : Q :=
  0.05 * hinge 300000 x + 0.05 * hinge 600000 x + 0.05 * hinge 900000 x
  + 0.05 * hinge 1200000 x + 0.1 * hinge 1500000 x.

Definition slabTaxOld (x : Q) : Q :=
  0.05 * hinge 250000 x + 0.15 * hinge 500000 x + 0.1 * hinge 1000000 x.

(** The closed form of the slab tax of each regime. *)
Definition slabTaxClosed (x : Q) (regime : Regime) : Q :=
  match regime with
  | New => slabTaxNew x
  | Old => slabTaxOld x
  end.

(** The finite, non-zero income limits of the surcharge table. *)
Definition thresholds : list Q := [5000000; 10000000; 20000000; 50000000].

(** The rate the first loop of [calculateSurcharge] selects. *)
Definition tierRate (income : Q) (regime : Regime) : Q :=
  rateLoop income regime surchargeRatesFY2024_25 0.

(** [taxOnThreshold]: the [taxBeforeCess] of the nested call at a
    threshold. *)
Definition thresholdTax (T : Q) (regime : Regime) : Q :=
  match calculateTaxPayableInternal 1 T 0 regime taxDataFY2024_25 with
  | Some (r, _) => taxBeforeCess r
  | None => 0
  end.

(** The window [(T, T * 1.05]] in which relief at [T] is considered. *)
Definition inWindow (T income : Q) : Prop := T < income /\ income <= T * 1.05.

(** The cases of [calculateSurcharge]: its result [s] and the number of
    nested tax computations it performs. *)
Inductive SurchargeSpec (income t : Q) (regime : Regime) (s : Q)
    : nat -> Prop :=
| SurchargeNone :
    t <= 0 -> s == 0 -> SurchargeSpec income t regime s 0
| SurchargePlain :
    0 < t -> (forall T, In T thresholds -> ~ inWindow T income) ->
    s == t * tierRate income regime -> SurchargeSpec income t regime s 0
| SurchargeFull T :
    0 < t -> In T thresholds -> inWindow T income ->
    t + t * tierRate income regime - thresholdTax T regime <= income - T ->
    s == t * tierRate income regime -> SurchargeSpec income t regime s 1
| SurchargeRelief T :
    0 < t -> In T thresholds -> inWindow T income ->
    income - T < t + t * tierRate income regime - thresholdTax T regime ->
    s == Qmax 0 (thresholdTax T regime + (income - T) - t) ->
    SurchargeSpec income t regime s 1.

(** ** The relief comparison as the specification words it

    Section 4.4 of the specification has [taxOnThreshold] recomputed "by
    invoking the Slab Tax Calculator (via the taxable-income-to-tax
    composition, deductions = 0) on T directly", with no surcharge
    computation involved: the tax after rebate at gross income [T]. *)
Definition specTaxOnThreshold (T : Q) (regime : Regime) : Q :=
  afterRebate (taxableOf T 0 regime) regime.

(** ** The calculators of the deductions page ([src/app/deductions/page.tsx]) *)

Module DeductionsPage.


(** [x || 0] for an optional number: a missing or zero [x] gives 0. *)
Definition orZero (x : option Q) : Q :=
  match x with
  | Some q => if Qeq_bool q 0 then 0 else q
  | None => 0
  end.





Inductive MetroCity : Type := yes | no.

Record HraFormData : Type := mkHraFormData {
  basicSalary : Q;
  da : option Q;
  hraReceived : Q;
  rentPaid : Q;
  metroCity : MetroCity
}.

Definition calculateHraExemption (data : HraFormData) : Q :=
  let salaryForHra := basicSalary data + orZero (da data) in
  let actualHra := hraReceived data in
  let rentMinus10PercSalary := Qmax 0 (rentPaid data - 0.1 * salaryForHra) in
  let percentageOfSalary :=
    match metroCity data with
    | yes => 0.5 * salaryForHra
    | no => 0.4 * salaryForHra
    end in
  Qmin actualHra (Qmin rentMinus10PercSalary percentageOfSalary).

End DeductionsPage.

(** ** The rate calculator of the surcharge page
    ([src/app/surcharge/page.tsx]) *)

Module SurchargePage.

Definition MAX_SURCHARGE_CAP_NEW_REGIME : Q := 0.25.

(** The numbers of the result; its [note], a text built from them, is left
    out. *)
Record SurchargeResult : Type := mkSurchargeResult {
  rate : Q;
  amount : Q
}.

Definition calculateSurcharge (income : Q) : SurchargeResult :=
  let rate :=
    if Qgt_bool income 50000000 then 0.37
    else if Qgt_bool income 20000000 then 0.25
    else if Qgt_bool income 10000000 then 0.15
    else if Qgt_bool income 5000000 then 0.1
    else 0 in
  let illustrativeAmount := income * rate in
  {| rate := rate; amount := illustrativeAmount |}.

End SurchargePage.

(** ** Text, as the deduction estimators use it

    A deduction string is modelled as a [string] of ASCII characters; on
    such text [trim], [toLowerCase], [toUpperCase], [includes] and [split]
    below are JavaScript's. *)

Module Text.

(** The ASCII white space that [trim] removes. *)
Definition isSpace (c : ascii) : bool :=
  let n := nat_of_ascii c in
  Nat.eqb n 32 || (Nat.leb 9 n && Nat.leb n 13).

Fixpoint trimStart (s : string) : string :=
  match s with
  | EmptyString => EmptyString
  | String c s' => if isSpace c then trimStart s' else s
  end.

Fixpoint trimEnd (s : string) : string :=
  match s with
  | EmptyString => EmptyString
  | String c s' =>
      match trimEnd s' with
      | EmptyString => if isSpace c then EmptyString else String c EmptyString
      | t => String c t
      end
  end.

Definition trim (s : string) : string := trimEnd (trimStart s).

Definition lowerChar (c : ascii) : ascii :=
  let n := nat_of_ascii c in
  if Nat.leb 65 n && Nat.leb n 90 then ascii_of_nat (n + 32) else c.

Definition upperChar (c : ascii) : ascii :=
  let n := nat_of_ascii c in
  if Nat.leb 97 n && Nat.leb n 122 then ascii_of_nat (n - 32) else c.

Fixpoint mapChars (f : ascii -> ascii) (s : string) : string :=
  match s with
  | EmptyString => EmptyString
  | String c s' => String (f c) (mapChars f s')
  end.

Definition toLowerCase (s : string) : string := mapChars lowerChar s.
Definition toUpperCase (s : string) : string := mapChars upperChar s.

(** [hay.includes(needle)]. *)
Fixpoint includes (needle hay : string) : bool :=
  String.prefix needle hay
  || match hay with
     | EmptyString => false
     | String _ hay' => includes needle hay'
     end.

(** [s.split(sep)] for a separator of one character: never empty. *)
Fixpoint split (sep : ascii) (s : string) : list string :=
  match s with
  | EmptyString => [EmptyString]
  | String c s' =>
      if Ascii.eqb c sep then EmptyString :: split sep s'
      else match split sep s' with
           | [] => [String c EmptyString]
           | part :: parts => String c part :: parts
           end
  end.

Definition isDigit (c : ascii) : bool :=
  let n := nat_of_ascii c in Nat.leb 48 n && Nat.leb n 57.

Definition isDot (c : ascii) : bool := Ascii.eqb c "."%char.

(** [s.replace(/[^0-9.]/g, "")]. *)
Fixpoint keepDigitsAndDots (s : string) : string :=
  match s with
  | EmptyString => EmptyString
  | String c s' =>
      if isDigit c || isDot c then String c (keepDigitsAndDots s')
      else keepDigitsAndDots s'
  end.

(** The digits at the head of [s], most significant first, and the rest. *)
Fixpoint takeDigits (s : string) : list N * string :=
  match s with
  | String c s' =>
      if isDigit c
      then let (ds, rest) := takeDigits s' in
           (N.of_nat (nat_of_ascii c - 48) :: ds, rest)
      else (nil, s)
  | EmptyString => (nil, EmptyString)
  end.

Definition digitsValue (ds : list N) : N :=
  fold_left (fun acc d => (10 * acc + d)%N) ds 0%N.

(** [parseFloat] on a string of digits and dots, all it is given here: the
    longest head of the form [digits], [digits.], [digits.digits] or
    [.digits]; [None] is [NaN].  The value is the exact decimal. *)
Definition parseFloat (s : string) : option Q :=
  let (whole, rest) := takeDigits s in
  let frac :=
    match rest with
    | String c rest' => if isDot c then fst (takeDigits rest') else nil
    | EmptyString => nil
    end in
  match whole, frac with
  | nil, nil => None
  | _, _ =>
      Some (inject_Z (Z.of_N (digitsValue whole))
            + (Z.of_N (digitsValue frac)
               # Pos.pow 10 (Pos.of_nat (List.length frac))))
  end.

End Text.

(** ** The deduction estimator of the suggestions flow
    ([src/ai/flows/tax-saving-suggestions.ts]) *)

Module SuggestionsFlow.
Import Text.

(** The body of the [forEach]: the total after the entry [d].  Its last
    [if], on "standard deduction", has an empty body. *)
Definition forEachDeduction (total : Q) (d : string) : Q :=
  let parts := map trim (split ":" d) in
  match parts with
  | [part0; part1] =>
      match parseFloat (keepDigitsAndDots part1) with
      | Some amount =>
          if String.eqb (toUpperCase part0) "80C"
          then total + Qmin amount 150000
          else if String.eqb (toUpperCase part0) "80D"
          then total + Qmin amount 75000
          else if String.eqb (toUpperCase part0) "NPS"
                  || includes "80CCD(1B)" (toUpperCase part0)
          then total + Qmin amount 50000
          else total + amount
      | None => total
      end
  | _ =>
      if includes "80c" (toLowerCase d) then total + 150000
      else if includes "80d" (toLowerCase d) then total + 25000
      else if includes "hra" (toLowerCase d) then total
      else if includes "nps" (toLowerCase d)
              || includes "80ccd(1b)" (toLowerCase d)
      then total + 50000
      else total
  end.

Definition estimateTotalDeductions (deductionString : string) : Q :=
  let deductions := map trim (split "," deductionString) in
  let standardDeduction := 50000 in
  let total := fold_left forEachDeduction deductions 0 in
  if negb (existsb (fun d => includes "standard deduction" (toLowerCase d))
             deductions)
  then total + standardDeduction
  else total.

(** The two tax estimates [getTaxSavingSuggestions] computes before it
    writes its prompt. *)
Definition estimatedTaxes (income : Q) (deductions : string)
    : option TaxResult * option TaxResult :=
  let estimatedDeductionsOld := estimateTotalDeductions deductions in
  let taxOld := calculateTaxPayable income estimatedDeductionsOld Old in
  let taxNew := calculateTaxPayable income 0 New in
  (taxOld, taxNew).

End SuggestionsFlow.

(** ** The deduction estimator of the report page
    ([src/app/report/page.tsx]) *)

Module ReportPage.
Import Text.

(** The body of the [forEach]: the total and the flag
    [standardDeductionCovered] after the entry [d]. *)
Definition forEachDeduction (state : Q * bool) (d : string) : Q * bool :=
  let (total, standardDeductionCovered) := state in
  let standardDeduction := 50000 in
  let parts := map trim (split ":" d) in
  match parts with
  | [part0; part1] =>
      let section := toUpperCase part0 in
      match parseFloat (keepDigitsAndDots part1) with
      | Some amount =>
          if String.eqb section "80C"
          then (total + Qmin amount 150000, standardDeductionCovered)
          else if String.eqb section "80D"
          then (total + Qmin amount 75000, standardDeductionCovered)
          else if String.eqb section "NPS" || includes "80CCD(1B)" section
          then (total + Qmin amount 50000, standardDeductionCovered)
          else if String.eqb section "STD DED"
                  || String.eqb section "STANDARD DEDUCTION"
          then (total + Qmin amount standardDeduction, true)
          else (total + amount, standardDeductionCovered)
      | None => (total, standardDeductionCovered)
      end
  | _ =>
      if String.eqb d "" then (total, standardDeductionCovered)
      else if includes "80c" (toLowerCase d)
      then (total + 150000, standardDeductionCovered)
      else if includes "80d" (toLowerCase d)
      then (total + 25000, standardDeductionCovered)
      else if includes "nps" (toLowerCase d)
              || includes "80ccd(1b)" (toLowerCase d)
      then (total + 50000, standardDeductionCovered)
      else if includes "standard deduction" (toLowerCase d)
      then (total, true)
      else (total, standardDeductionCovered)
  end.

(** [formIncome] is [form.getValues("income")], [None] when the field holds
    no number. *)
Definition estimateTotalDeductions (formIncome : option Q)
    (deductionString : string) : Q :=
  if String.eqb deductionString ""
     || String.eqb (toLowerCase deductionString) "n/a"
  then 0
  else
    let deductions := map trim (split "," deductionString) in
    let standardDeduction := 50000 in
    let (total, standardDeductionCovered) :=
      fold_left forEachDeduction deductions (0, false) in
    if negb standardDeductionCovered
       && match formIncome with
          | Some income => Qgt_bool income 50000
          | None => false
          end
    then total + standardDeduction
    else total.

(** The two taxes the report computes on submission. *)
Definition calculatedTaxes (formIncome : option Q) (income : Q)
    (deductions : string) : option TaxResult * option TaxResult :=
  let estimatedDeductionsOld :=
    estimateTotalDeductions formIncome deductions in
  let taxOld := calculateTaxPayable income estimatedDeductionsOld Old in
  let taxNew := calculateTaxPayable income 0 New in
  (taxOld, taxNew).

End ReportPage.

(** ** Slab tables in general *)

(** The lower bound [calculateSlabTax] gives a slab. *)
Definition slabMinOf (slab : Slab) : Q :=
  if Qeq_bool (rangeMin slab) 0 then 0 else rangeMin slab - 1.

(** A table whose slabs follow one another from [lo] on: each starts where
    the one before ends, and only the last may be unbounded. *)
Fixpoint contiguous (lo : Q) (table : list Slab) : Prop :=
  match table with
  | [] => True
  | slab :: rest =>
      slabMinOf slab == lo
      /\ match rangeMax slab with
         | Fin m => lo <= m /\ contiguous m rest
         | Infinity => rest = []
         end
  end.

(** The rate of a slab times the part of the income [x] that lies in it. *)
Definition slabShare (x : Q) (slab : Slab) : Q :=
  rate slab * Qmax 0 (minNum x (rangeMax slab) - slabMinOf slab).

Definition sumOfShares (x : Q) (table : list Slab) : Q :=
  fold_right (fun slab acc => slabShare x slab + acc) 0 table.

(** * Properties *)

(** ** Comparisons and case analysis *)

Lemma Qle_bool_false (a b : Q) : Qle_bool a b = false <-> b < a.
Proof.
  split; intro H.
  - apply Qnot_le_lt. intro Hle. apply Qle_bool_iff in Hle. congruence.
  - apply not_true_iff_false. intro Ht. apply Qle_bool_iff in Ht. lra.
Qed.

(** Evaluate the equality tests between constants of the tables. *)
Ltac eval_Qeq_bool :=
  repeat match goal with
  | |- context [Qeq_bool ?a ?b] =>
      let v := eval vm_compute in (Qeq_bool a b) in
      change (Qeq_bool a b) with v; cbv iota
  end.

(** Split on a [Qmax] or [Qmin], dropping the impossible side. *)
Ltac name_max a b :=
  let m := fresh "m" in let H := fresh "Hm" in
  pose proof (Q.max_spec a b) as H;
  set (m := Qmax a b) in *; clearbody m;
  destruct H as [[? ?]|[? ?]]; try (exfalso; lra).

Ltac name_min a b :=
  let m := fresh "m" in let H := fresh "Hm" in
  pose proof (Q.min_spec a b) as H;
  set (m := Qmin a b) in *; clearbody m;
  destruct H as [[? ?]|[? ?]]; try (exfalso; lra).

Ltac split_max :=
  match goal with
  | |- context [Qmax ?a ?b] => name_max a b
  | |- context [Qmin ?a ?b] => name_min a b
  | _ : context [Qmax ?a ?b] |- _ => name_max a b
  | _ : context [Qmin ?a ?b] |- _ => name_min a b
  end.

(** Split on a comparison of the code, dropping the impossible side. *)
Ltac split_Qle :=
  match goal with
  | |- context [Qle_bool ?a ?b] =>
      let H := fresh "H" in
      destruct (Qle_bool a b) eqn:H;
      [ apply Qle_bool_iff in H | apply Qle_bool_false in H ];
      try (exfalso; lra)
  end.

Ltac in_thresholds := cbv [thresholds In]; tauto.

Lemma Qmax_0_twice (a b : Q) : a == b -> Qmax 0 (Qmax 0 a) == Qmax 0 b.
Proof.
  intros Hab.
  destruct (Q.max_spec 0 a) as [[? Ha]|[? Ha]];
  destruct (Q.max_spec 0 b) as [[? Hb]|[? Hb]];
  destruct (Q.max_spec 0 (Qmax 0 a)) as [[? Hc]|[? Hc]]; lra.
Qed.

(** ** The slab tax *)

Lemma slabLoop_new (x : Q) :
  slabLoop x (slabs (newRegime taxDataFY2024_25)) 0 0 == slabTaxNew x.
Proof.
  cbv [slabLoop taxDataFY2024_25 newRegime slabs rangeMin
       rangeMax rate minNum Qgt_bool Qlt_bool slabTaxNew hinge].
  eval_Qeq_bool.
  (repeat split_max); (repeat (split_Qle; cbv [negb])); lra.
Qed.

Lemma slabLoop_old (x : Q) :
  slabLoop x (slabs (oldRegime taxDataFY2024_25)) 0 0 == slabTaxOld x.
Proof.
  cbv [slabLoop taxDataFY2024_25 oldRegime slabs rangeMin
       rangeMax rate minNum Qgt_bool Qlt_bool slabTaxOld hinge].
  eval_Qeq_bool.
  (repeat split_max); (repeat (split_Qle; cbv [negb])); lra.
Qed.

Lemma hinge_nonneg (a x : Q) : 0 <= hinge a x.
Proof. apply Q.le_max_l. Qed.

Lemma hinge_mono (a x y : Q) : x <= y -> hinge a x <= hinge a y.
Proof.
  intros Hxy. unfold hinge.
  destruct (Q.max_spec 0 (x - a)) as [[? Hx]|[? Hx]];
  destruct (Q.max_spec 0 (y - a)) as [[? Hy]|[? Hy]]; lra.
Qed.

(** A hinge grows no faster than its argument. *)
Lemma hinge_slope (a x y : Q) : x <= y -> hinge a y - hinge a x <= y - x.
Proof.
  intros Hxy. unfold hinge.
  destruct (Q.max_spec 0 (x - a)) as [[? Hx]|[? Hx]];
  destruct (Q.max_spec 0 (y - a)) as [[? Hy]|[? Hy]]; lra.
Qed.

Lemma hinge_above (a x : Q) : a <= x -> hinge a x == x - a.
Proof.
  intros H. unfold hinge.
  destruct (Q.max_spec 0 (x - a)) as [[? Hx]|[? Hx]]; lra.
Qed.

Lemma slabTaxNew_nonneg (x : Q) : 0 <= slabTaxNew x.
Proof.
  unfold slabTaxNew.
  pose proof (hinge_nonneg 300000 x). pose proof (hinge_nonneg 600000 x).
  pose proof (hinge_nonneg 900000 x). pose proof (hinge_nonneg 1200000 x).
  pose proof (hinge_nonneg 1500000 x). lra.
Qed.

Lemma slabTaxOld_nonneg (x : Q) : 0 <= slabTaxOld x.
Proof.
  unfold slabTaxOld.
  pose proof (hinge_nonneg 250000 x). pose proof (hinge_nonneg 500000 x).
  pose proof (hinge_nonneg 1000000 x). lra.
Qed.

Lemma slabTaxClosed_nonneg (x : Q) (regime : Regime) :
  0 <= slabTaxClosed x regime.
Proof.
  destruct regime; [ apply slabTaxNew_nonneg | apply slabTaxOld_nonneg ].
Qed.

Lemma slabTaxOf_closed (x : Q) (regime : Regime) :
  slabTaxOf x regime == slabTaxClosed x regime.
Proof.
  unfold slabTaxOf, calculateSlabTax.
  destruct regime; cbn [regimeDataOf slabTaxClosed].
  - rewrite Q.max_r; [ apply slabLoop_new | ].
    rewrite slabLoop_new. apply slabTaxNew_nonneg.
  - rewrite Q.max_r; [ apply slabLoop_old | ].
    rewrite slabLoop_old. apply slabTaxOld_nonneg.
Qed.

Lemma slabTaxClosed_mono (x y : Q) (regime : Regime) :
  x <= y -> slabTaxClosed x regime <= slabTaxClosed y regime.
Proof.
  intros Hxy. destruct regime; cbv [slabTaxClosed slabTaxNew slabTaxOld].
  - pose proof (hinge_mono 300000 x y Hxy).
    pose proof (hinge_mono 600000 x y Hxy).
    pose proof (hinge_mono 900000 x y Hxy).
    pose proof (hinge_mono 1200000 x y Hxy).
    pose proof (hinge_mono 1500000 x y Hxy). lra.
  - pose proof (hinge_mono 250000 x y Hxy).
    pose proof (hinge_mono 500000 x y Hxy).
    pose proof (hinge_mono 1000000 x y Hxy). lra.
Qed.

(** The marginal rate never exceeds 30%. *)
Lemma slabTaxClosed_slope (x y : Q) (regime : Regime) :
  x <= y -> slabTaxClosed y regime - slabTaxClosed x regime <= 0.3 * (y - x).
Proof.
  intros Hxy. destruct regime; cbv [slabTaxClosed slabTaxNew slabTaxOld].
  - pose proof (hinge_slope 300000 x y Hxy).
    pose proof (hinge_slope 600000 x y Hxy).
    pose proof (hinge_slope 900000 x y Hxy).
    pose proof (hinge_slope 1200000 x y Hxy).
    pose proof (hinge_slope 1500000 x y Hxy). lra.
  - pose proof (hinge_slope 250000 x y Hxy).
    pose proof (hinge_slope 500000 x y Hxy).
    pose proof (hinge_slope 1000000 x y Hxy). lra.
Qed.

(** ** The rebate *)

Lemma slabTaxClosed_at_rebateThreshold (regime : Regime) :
  slabTaxClosed (rebateThreshold regime) regime == rebateMaxAmount regime.
Proof. destruct regime; vm_compute; reflexivity. Qed.

Lemma rebateOf_cases (x : Q) (regime : Regime) :
  (x <= rebateThreshold regime
   /\ rebateOf x regime == Qmin (slabTaxOf x regime) (rebateMaxAmount regime))
  \/ (rebateThreshold regime < x /\ rebateOf x regime == 0).
Proof.
  destruct regime; cbv [rebateOf rebateThreshold rebateMaxAmount regimeDataOf
    taxDataFY2024_25 newRegime oldRegime rebateLimit rebateAmount];
    split_Qle; [ left | right | left | right ]; split; (lra || reflexivity).
Qed.

Lemma afterRebate_low (x : Q) (regime : Regime) :
  x <= rebateThreshold regime -> afterRebate x regime == 0.
Proof.
  intros Hx. unfold afterRebate.
  destruct (rebateOf_cases x regime) as [[_ Hr]|[Hgt _]]; [ | lra ].
  rewrite Hr.
  pose proof (slabTaxClosed_mono _ _ regime Hx) as Hm.
  rewrite slabTaxClosed_at_rebateThreshold, <- slabTaxOf_closed in Hm.
  rewrite (Q.min_l _ _ Hm). apply Q.max_l. lra.
Qed.

Lemma afterRebate_high (x : Q) (regime : Regime) :
  rebateThreshold regime < x -> afterRebate x regime == slabTaxClosed x regime.
Proof.
  intros Hx. unfold afterRebate.
  destruct (rebateOf_cases x regime) as [[Hle _]|[_ Hr]]; [ lra | ].
  rewrite Hr, slabTaxOf_closed.
  pose proof (slabTaxClosed_nonneg x regime).
  rewrite Q.max_r; lra.
Qed.

Lemma afterRebate_nonneg (x : Q) (regime : Regime) : 0 <= afterRebate x regime.
Proof. apply Q.le_max_l. Qed.

Lemma afterRebate_mono (x y : Q) (regime : Regime) :
  x <= y -> afterRebate x regime <= afterRebate y regime.
Proof.
  intros Hxy.
  destruct (Qlt_le_dec (rebateThreshold regime) x) as [Hx|Hx].
  - rewrite (afterRebate_high x regime Hx), (afterRebate_high y regime); [ | lra ].
    apply slabTaxClosed_mono; exact Hxy.
  - rewrite (afterRebate_low x regime Hx). apply afterRebate_nonneg.
Qed.

(** ** Taxable income *)

Lemma stdDedIncome_cases (g : Q) :
  (g <= 0 /\ stdDedIncome g = g)
  \/ (0 < g /\ stdDedIncome g = Qmax 0 (g - 50000)).
Proof.
  cbv [stdDedIncome Qgt_bool Qlt_bool].
  split_Qle; cbv [negb]; [ left | right ]; split; (lra || reflexivity).
Qed.

Lemma stdDedIncome_mono (g1 g2 : Q) :
  g1 <= g2 -> stdDedIncome g1 <= stdDedIncome g2.
Proof.
  intros H.
  destruct (stdDedIncome_cases g1) as [[? ->]|[? ->]];
  destruct (stdDedIncome_cases g2) as [[? ->]|[? ->]];
  repeat split_max; lra.
Qed.

Lemma stdDedIncome_above (g : Q) :
  50000 <= g -> stdDedIncome g == g - 50000.
Proof.
  intros H. destruct (stdDedIncome_cases g) as [[? ->]|[? ->]]; [ lra | ].
  apply Q.max_r. lra.
Qed.

Lemma taxableOf_nonneg (g d : Q) (regime : Regime) : 0 <= taxableOf g d regime.
Proof. apply Q.le_max_l. Qed.

Lemma taxableOf_mono_income (g1 g2 d : Q) (regime : Regime) :
  g1 <= g2 -> taxableOf g1 d regime <= taxableOf g2 d regime.
Proof.
  intros H. pose proof (stdDedIncome_mono _ _ H).
  unfold taxableOf. destruct regime; repeat split_max; lra.
Qed.

Lemma taxableOf_anti_deductions (g d1 d2 : Q) :
  d1 <= d2 -> taxableOf g d2 Old <= taxableOf g d1 Old.
Proof.
  intros H. unfold taxableOf. repeat split_max; lra.
Qed.

(** ** The surcharge *)

Lemma tierRate_cases (income : Q) (regime : Regime) :
  (income <= 5000000 /\ tierRate income regime == 0)
  \/ (5000000 < income <= 10000000 /\ tierRate income regime == 0.1)
  \/ (10000000 < income <= 20000000 /\ tierRate income regime == 0.15)
  \/ (20000000 < income <= 50000000 /\ tierRate income regime == 0.25)
  \/ (50000000 < income
      /\ tierRate income regime
         == match regime with New => 0.25 | Old => 0.37 end).
Proof.
  cbv [tierRate rateLoop surchargeRatesFY2024_25 incomeLimit leNum isInfinity
       cappedRate surchargeRate capForNewRegime].
  destruct regime; repeat split_Qle;
    repeat match goal with |- context [Qmin ?a ?b] =>
      let v := eval vm_compute in (Qmin a b) in change (Qmin a b) with v end;
    intuition lra.
Qed.

Lemma tierRate_nonneg (income : Q) (regime : Regime) :
  0 <= tierRate income regime.
Proof.
  destruct (tierRate_cases income regime)
    as [[_ H]|[[_ H]|[[_ H]|[[_ H]|[_ H]]]]];
    rewrite H; destruct regime; lra.
Qed.

Lemma not_in_window (income : Q) :
  (income <= 5000000 \/ (5000000 * 1.05 < income /\ income <= 10000000)
   \/ (10000000 * 1.05 < income /\ income <= 20000000)
   \/ (20000000 * 1.05 < income /\ income <= 50000000)
   \/ 50000000 * 1.05 < income) ->
  forall T, In T thresholds -> ~ inWindow T income.
Proof.
  intros H T HT [H1 H2].
  repeat (destruct HT as [<- | HT]; [ lra | ]). destruct HT.
Qed.

(** At most one window contains a given income. *)
Lemma window_unique (T1 T2 income : Q) :
  In T1 thresholds -> In T2 thresholds ->
  inWindow T1 income -> inWindow T2 income -> T1 = T2.
Proof.
  intros H1 H2 [A1 B1] [A2 B2].
  repeat (destruct H1 as [<- | H1]; [ | ]);
    repeat (destruct H2 as [<- | H2]; [ | ]);
    try reflexivity; try (exfalso; lra);
    try (destruct H1); try (destruct H2).
Qed.

(** The nested call at a threshold needs no further nested call, whatever
    the budget. *)
Lemma nested_at_threshold (n : nat) (T : Q) (regime : Regime) :
  In T thresholds ->
  calculateTaxPayableInternal (S n) T 0 regime taxDataFY2024_25
  = calculateTaxPayableInternal 1 T 0 regime taxDataFY2024_25.
Proof.
  intros HT.
  repeat (destruct HT as [<- | HT];
          [ destruct regime; vm_compute; reflexivity | ]).
  destruct HT.
Qed.

Lemma threshold_no_nesting (T : Q) (regime : Regime) :
  In T thresholds ->
  exists r,
    calculateTaxPayableInternal 1 T 0 regime taxDataFY2024_25
    = Some (r, 0%nat)
    /\ taxBeforeCess r = thresholdTax T regime.
Proof.
  intros HT.
  repeat (destruct HT as [<- | HT];
          [ destruct regime; eexists; split; vm_compute; reflexivity | ]).
  destruct HT.
Qed.

Section SurchargeCases.

Variable taxAt : Q -> Q -> Regime -> FiscalYearTaxData -> M TaxResult.

Hypothesis taxAt_threshold :
  forall T regime, In T thresholds ->
    exists r, taxAt T 0 regime taxDataFY2024_25 = Some (r, 0%nat)
      /\ taxBeforeCess r = thresholdTax T regime.

Lemma calculateSurcharge_spec (income t : Q) (regime : Regime) :
  exists s k, calculateSurcharge taxAt income t regime = Some (s, k)
    /\ SurchargeSpec income t regime s k.
Proof.
  unfold calculateSurcharge.
  destruct (Qle_bool t 0) eqn:Ht.
  - apply Qle_bool_iff in Ht. exists 0, 0%nat. split; [ reflexivity | ].
    apply SurchargeNone; [ exact Ht | reflexivity ].
  - apply Qle_bool_false in Ht.
    change (rateLoop income regime surchargeRatesFY2024_25 0)
      with (tierRate income regime).
    pose proof (tierRate_nonneg income regime) as Hr.
    destruct (taxAt_threshold 5000000 regime ltac:(in_thresholds))
      as [r5 [E5 K5]].
    destruct (taxAt_threshold 10000000 regime ltac:(in_thresholds))
      as [r10 [E10 K10]].
    destruct (taxAt_threshold 20000000 regime ltac:(in_thresholds))
      as [r20 [E20 K20]].
    destruct (taxAt_threshold 50000000 regime ltac:(in_thresholds))
      as [r50 [E50 K50]].
    cbv [reliefLoop surchargeRatesFY2024_25 incomeLimit Qgt_bool Qlt_bool].
    rewrite E5, E10, E20, E50.
    eval_Qeq_bool.
    cbv [bind nested ret].
    rewrite K5, K10, K20, K50.
    repeat (split_Qle; cbv [negb andb]); cbv [Nat.add];
      (eexists; eexists; split; [ reflexivity | ]).
    all: try solve [ apply SurchargePlain;
      [ lra | apply not_in_window; lra
      | apply Q.max_r; apply Qmult_le_0_compat; lra ] ].
    all: try solve [
      match goal with
      | H : ?T < ?x |- SurchargeSpec ?x _ _ (Qmax 0 (_ * _)) _  =>
          apply (SurchargeFull _ _ _ _ T);
          [ lra | in_thresholds | split; lra | lra
          | apply Q.max_r; apply Qmult_le_0_compat; lra ]
      end ].
    all: try solve [
      match goal with
      | H : ?T < ?x |- SurchargeSpec ?x _ _ (Qmax 0 (Qmax 0 _)) _  =>
          apply (SurchargeRelief _ _ _ _ T);
          [ lra | in_thresholds | split; lra | lra
          | apply Qmax_0_twice; ring ]
      end ].
Qed.

End SurchargeCases.

(** [calculateSurcharge] consults the nested computation at the thresholds
    only. *)
Lemma calculateSurcharge_ext
    (taxAt1 taxAt2 : Q -> Q -> Regime -> FiscalYearTaxData -> M TaxResult)
    (income t : Q) (regime : Regime) :
  (forall T, In T thresholds ->
     taxAt1 T 0 regime taxDataFY2024_25 = taxAt2 T 0 regime taxDataFY2024_25) ->
  calculateSurcharge taxAt1 income t regime
  = calculateSurcharge taxAt2 income t regime.
Proof.
  intros H.
  pose proof (H 5000000 ltac:(in_thresholds)) as E5.
  pose proof (H 10000000 ltac:(in_thresholds)) as E10.
  pose proof (H 20000000 ltac:(in_thresholds)) as E20.
  pose proof (H 50000000 ltac:(in_thresholds)) as E50.
  cbv [calculateSurcharge reliefLoop surchargeRatesFY2024_25 incomeLimit].
  rewrite E5, E10, E20, E50. reflexivity.
Qed.

(** ** The whole computation *)

Lemma taxPayableBody_stages (surchargeOf : Q -> Q -> Regime -> M Q)
    (g d : Q) (regime : Regime) :
  taxPayableBody surchargeOf g d regime taxDataFY2024_25
  = (s <- surchargeOf (surchargeBase g regime)
            (afterRebate (taxableOf g d regime) regime) regime ;;
     ret (resultWith g d regime s)).
Proof.
  destruct regime;
    cbv [taxPayableBody regimeDataOf taxDataFY2024_25 newRegime oldRegime
         standardDeduction rebateLimit rebateAmount slabs truthy
         resultWith afterRebate rebateOf slabTaxOf taxableOf surchargeBase
         stdDedIncome];
    eval_Qeq_bool; cbv [negb]; rewrite !andb_true_r; cbn [andb];
    reflexivity.
Qed.

Lemma taxPayableBody_new_deductions (surchargeOf : Q -> Q -> Regime -> M Q)
    (g d1 d2 : Q) (taxData : FiscalYearTaxData) :
  taxPayableBody surchargeOf g d1 New taxData
  = taxPayableBody surchargeOf g d2 New taxData.
Proof. cbv beta iota zeta delta [taxPayableBody]. reflexivity. Qed.

(** Two levels of calls are all a computation ever uses. *)
Lemma depth_irrelevant (n : nat) (g d : Q) (regime : Regime) :
  calculateTaxPayableInternal (S (S n)) g d regime taxDataFY2024_25
  = calculateTaxPayableInternal 2 g d regime taxDataFY2024_25.
Proof.
  change (taxPayableBody
            (calculateSurcharge (calculateTaxPayableInternal (S n)))
            g d regime taxDataFY2024_25
          = taxPayableBody
              (calculateSurcharge (calculateTaxPayableInternal 1))
              g d regime taxDataFY2024_25).
  rewrite !taxPayableBody_stages.
  rewrite (calculateSurcharge_ext (calculateTaxPayableInternal (S n))
             (calculateTaxPayableInternal 1)); [ reflexivity | ].
  intros T HT. apply nested_at_threshold; exact HT.
Qed.

Lemma calculateTaxPayableInternal_spec (n : nat) (g d : Q) (regime : Regime) :
  exists s k,
    calculateTaxPayableInternal (S (S n)) g d regime taxDataFY2024_25
    = Some (resultWith g d regime s, k)
    /\ SurchargeSpec (surchargeBase g regime)
         (afterRebate (taxableOf g d regime) regime) regime s k.
Proof.
  rewrite depth_irrelevant.
  change (calculateTaxPayableInternal 2 g d regime taxDataFY2024_25)
    with (taxPayableBody
            (calculateSurcharge (calculateTaxPayableInternal 1))
            g d regime taxDataFY2024_25).
  rewrite taxPayableBody_stages.
  destruct (calculateSurcharge_spec (calculateTaxPayableInternal 1)
              (fun T r HT => threshold_no_nesting T r HT)
              (surchargeBase g regime)
              (afterRebate (taxableOf g d regime) regime) regime)
    as [s [k [E HS]]].
  exists s, k. rewrite E. cbv [bind ret]. rewrite Nat.add_0_r.
  split; [ reflexivity | exact HS ].
Qed.

Lemma calculateTaxPayable_spec (g d : Q) (regime : Regime) :
  exists s k,
    calculateTaxPayable g d regime = Some (resultWith g d regime s)
    /\ SurchargeSpec (surchargeBase g regime)
         (afterRebate (taxableOf g d regime) regime) regime s k.
Proof.
  destruct (calculateTaxPayableInternal_spec 14 g d regime)
    as [s [k [E HS]]].
  exists s, k. split; [ | exact HS ].
  unfold calculateTaxPayable, callBudget. rewrite E. reflexivity.
Qed.

(** ** Rounding *)

Lemma round_mono (x y : Q) : x <= y -> round x <= round y.
Proof.
  intros H. unfold round. rewrite <- Zle_Qle.
  apply Qfloor_resp_le. lra.
Qed.

Lemma round_compat (x y : Q) : x == y -> round x == round y.
Proof.
  intros H. apply Qle_antisym; apply round_mono; lra.
Qed.

Lemma round_zero : round 0 == 0.
Proof. vm_compute. reflexivity. Qed.

Lemma round_nonneg (x : Q) : 0 <= x -> 0 <= round x.
Proof.
  intros H. rewrite <- round_zero. apply round_mono. exact H.
Qed.

(** The rounded value is within half a unit of the argument. *)
Lemma round_near (x : Q) : x - 0.5 < round x /\ round x <= x + 0.5.
Proof.
  unfold round. split.
  - pose proof (Qlt_floor (x + 0.5)) as H.
    rewrite inject_Z_plus in H. change (inject_Z 1) with 1 in H. lra.
  - apply Qfloor_le.
Qed.

(** ** Consequences of the surcharge cases *)

Lemma SurchargeSpec_nonneg (income t : Q) (regime : Regime) (s : Q) (k : nat) :
  SurchargeSpec income t regime s k -> 0 <= s.
Proof.
  pose proof (tierRate_nonneg income regime) as Hr.
  intros [Ht Hs | Ht _ Hs | T Ht _ _ _ Hs | T Ht _ _ _ Hs]; rewrite Hs.
  - lra.
  - apply Qmult_le_0_compat; lra.
  - apply Qmult_le_0_compat; lra.
  - apply Q.le_max_l.
Qed.

Lemma SurchargeSpec_calls (income t : Q) (regime : Regime) (s : Q) (k : nat) :
  SurchargeSpec income t regime s k -> (k <= 1)%nat.
Proof. intros []; lia. Qed.

Lemma SurchargeSpec_zero_tax (income t : Q) (regime : Regime) (s : Q)
    (k : nat) :
  SurchargeSpec income t regime s k -> t <= 0 -> s == 0.
Proof. intros [] Ht; (assumption || lra). Qed.

(** With the income fixed, tax plus surcharge grows with the tax. *)
Lemma surcharge_mono_tax (income t1 t2 : Q) (regime : Regime) (s1 s2 : Q)
    (k1 k2 : nat) :
  SurchargeSpec income t1 regime s1 k1 ->
  SurchargeSpec income t2 regime s2 k2 ->
  t1 <= t2 -> t1 + s1 <= t2 + s2.
Proof.
  intros H1 H2 Hle.
  pose proof (SurchargeSpec_nonneg _ _ _ _ _ H2) as Hs2.
  pose proof (tierRate_nonneg income regime) as Hr.
  assert (Hprod : t1 * tierRate income regime <= t2 * tierRate income regime)
    by (apply Qmult_le_compat_r; assumption).
  destruct H1 as [Ht1 Hs1 | Ht1 Hw1 Hs1 | T1 Ht1 HT1 Hw1 Hc1 Hs1
                 | T1 Ht1 HT1 Hw1 Hc1 Hs1];
  destruct H2 as [Ht2 Es2 | Ht2 Hw2 Es2 | T2 Ht2 HT2 Hw2 Hc2 Es2
                 | T2 Ht2 HT2 Hw2 Hc2 Es2];
    try lra;
    try (exfalso; eapply Hw1; eassumption);
    try (exfalso; eapply Hw2; eassumption);
    try (assert (T1 = T2) by (eapply window_unique; eassumption); subst T2);
    repeat split_max; lra.
Qed.

(** ** Around a surcharge threshold *)

(** Above the last slab boundary the tax after rebate is linear. *)
Lemma afterRebate_top (x : Q) (regime : Regime) :
  1500000 <= x ->
  afterRebate x regime
  == 0.3 * x - match regime with New => 300000 | Old => 187500 end.
Proof.
  intros Hx. rewrite afterRebate_high.
  - destruct regime; cbv [slabTaxClosed slabTaxNew slabTaxOld];
      rewrite !hinge_above by lra; lra.
  - destruct regime;
      cbv [rebateThreshold regimeDataOf taxDataFY2024_25 newRegime oldRegime
           rebateLimit]; lra.
Qed.

Lemma taxableOf_above_threshold (g d : Q) (regime : Regime) :
  50000 <= g -> (regime = Old -> d == 0) -> taxableOf g d regime == g - 50000.
Proof.
  intros Hg Hd. pose proof (stdDedIncome_above g Hg).
  unfold taxableOf. destruct regime.
  - repeat split_max; lra.
  - specialize (Hd eq_refl). repeat split_max; lra.
Qed.

Lemma surchargeBase_above (g : Q) (regime : Regime) :
  50000 <= g ->
  surchargeBase g regime
  == g - match regime with New => 50000 | Old => 0 end.
Proof.
  intros Hg. destruct regime; cbn [surchargeBase].
  - apply stdDedIncome_above; exact Hg.
  - lra.
Qed.

(** The tax before cess at a threshold is what the relief comparison uses. *)
Lemma tax_at_threshold (T d : Q) (regime : Regime) (s : Q) (k : nat) :
  In T thresholds -> (regime = Old -> d == 0) ->
  SurchargeSpec (surchargeBase T regime)
    (afterRebate (taxableOf T d regime) regime) regime s k ->
  afterRebate (taxableOf T d regime) regime + s == thresholdTax T regime.
Proof.
  intros HT Hd HS.
  assert (Hg : 5000000 <= T)
    by (repeat (destruct HT as [<- | HT]; [ lra | ]); destruct HT).
  pose proof (taxableOf_above_threshold T d regime ltac:(lra) Hd) as Hx.
  pose proof (afterRebate_top (taxableOf T d regime) regime ltac:(lra)) as Ht.
  pose proof (surchargeBase_above T regime ltac:(lra)) as Hb.
  set (t := afterRebate (taxableOf T d regime) regime) in *. clearbody t.
  set (b := surchargeBase T regime) in *. clearbody b.
  set (x := taxableOf T d regime) in *. clearbody x.
  clear Hd.
  destruct HS as [Ht0 Hs | Ht0 Hw Hs | T' Ht0 HT' Hw Hc Hs
                 | T' Ht0 HT' Hw Hc Hs].
  - exfalso. destruct regime; lra.
  - destruct (tierRate_cases b regime) as [[? Hr]|[[? Hr]|[[? Hr]|[[? Hr]|[? Hr]]]]];
      rewrite Hr in Hs; clear Hr;
      repeat (destruct HT as [<- | HT]; [ | ]); try destruct HT;
      destruct regime; try (exfalso; lra).
    all: match goal with |- _ == thresholdTax ?T ?r =>
           let v := eval vm_compute in (Qred (thresholdTax T r)) in
           assert (HK : thresholdTax T r == v) by (vm_compute; reflexivity);
           rewrite HK; clear HK
         end; lra.
  - exfalso. destruct Hw as [W1 W2].
    repeat (destruct HT as [<- | HT]; [ | ]); try destruct HT;
    repeat (destruct HT' as [<- | HT']; [ | ]); try destruct HT';
    destruct regime; lra.
  - exfalso. destruct Hw as [W1 W2].
    repeat (destruct HT as [<- | HT]; [ | ]); try destruct HT;
    repeat (destruct HT' as [<- | HT']; [ | ]); try destruct HT';
    destruct regime; lra.
Qed.

Lemma not_window_cases (T income : Q) :
  ~ inWindow T income -> income <= T \/ T * 1.05 < income.
Proof.
  intros H. destruct (Qlt_le_dec T income) as [H1|H1]; [ | left; exact H1 ].
  destruct (Qlt_le_dec (T * 1.05) income) as [H2|H2]; [ right; exact H2 | ].
  exfalso. apply H. split; assumption.
Qed.

(** Name the tax on a threshold by its value. *)
Ltac eval_thresholdTax :=
  repeat match goal with
  | |- context [thresholdTax ?T ?r] =>
      let v := eval vm_compute in (Qred (thresholdTax T r)) in
      let HK := fresh "HK" in
      assert (HK : thresholdTax T r == v) by (vm_compute; reflexivity);
      let K := fresh "K" in
      set (K := thresholdTax T r) in *; clearbody K
  | _ : context [thresholdTax ?T ?r] |- _ =>
      let v := eval vm_compute in (Qred (thresholdTax T r)) in
      let HK := fresh "HK" in
      assert (HK : thresholdTax T r == v) by (vm_compute; reflexivity);
      let K := fresh "K" in
      set (K := thresholdTax T r) in *; clearbody K
  end.

Lemma relief_across_threshold (T d eps : Q) (regime : Regime) (s1 s2 : Q)
    (k1 k2 : nat) :
  In T thresholds -> 0 <= eps -> eps <= T * 0.05 ->
  (regime = Old -> d == 0) ->
  SurchargeSpec (surchargeBase T regime)
    (afterRebate (taxableOf T d regime) regime) regime s1 k1 ->
  SurchargeSpec (surchargeBase (T + eps) regime)
    (afterRebate (taxableOf (T + eps) d regime) regime) regime s2 k2 ->
  afterRebate (taxableOf (T + eps) d regime) regime + s2
  <= afterRebate (taxableOf T d regime) regime + s1 + eps.
Proof.
  intros HT He0 He1 Hd HS1 HS2.
  rewrite (tax_at_threshold T d regime s1 k1 HT Hd HS1).
  clear HS1 s1 k1.
  assert (Hg : 5000000 <= T)
    by (repeat (destruct HT as [<- | HT]; [ lra | ]); destruct HT).
  pose proof (taxableOf_above_threshold (T + eps) d regime ltac:(lra) Hd) as Hx.
  pose proof (afterRebate_top (taxableOf (T + eps) d regime) regime ltac:(lra))
    as Ht.
  pose proof (surchargeBase_above (T + eps) regime ltac:(lra)) as Hb.
  set (t := afterRebate (taxableOf (T + eps) d regime) regime) in *.
  clearbody t.
  set (b := surchargeBase (T + eps) regime) in *. clearbody b.
  set (x := taxableOf (T + eps) d regime) in *. clearbody x.
  clear Hd.
  destruct HS2 as [Ht0 Hs | Ht0 Hw Hs | T' Ht0 HT' Hw Hc Hs
                  | T' Ht0 HT' Hw Hc Hs].
  - exfalso. destruct regime; lra.
  - pose proof (not_window_cases _ _ (Hw T HT)) as Hnw. clear Hw.
    destruct (tierRate_cases b regime)
      as [[? Hr]|[[? Hr]|[[? Hr]|[[? Hr]|[? Hr]]]]];
      rewrite Hr in Hs; clear Hr;
      repeat (destruct HT as [<- | HT]; [ | ]); try destruct HT;
      destruct regime; try (exfalso; lra);
      eval_thresholdTax; lra.
  - destruct Hw as [W1 W2].
    repeat (destruct HT as [<- | HT]; [ | ]); try destruct HT;
    repeat (destruct HT' as [<- | HT']; [ | ]); try destruct HT';
    destruct regime; try (exfalso; lra); lra.
  - destruct Hw as [W1 W2].
    repeat (destruct HT as [<- | HT]; [ | ]); try destruct HT;
    repeat (destruct HT' as [<- | HT']; [ | ]); try destruct HT';
    destruct regime; try (exfalso; lra);
    eval_thresholdTax; repeat split_max; lra.
Qed.

(** ** Monotonicity in the income, old regime *)

Lemma surcharge_le_rate (income t : Q) (regime : Regime) (s : Q) (k : nat) :
  SurchargeSpec income t regime s k -> 0 <= t ->
  s <= t * tierRate income regime.
Proof.
  pose proof (tierRate_nonneg income regime) as Hr.
  intros [Ht0 Hs | Ht0 Hw Hs | T' Ht0 HT' Hw Hc Hs | T' Ht0 HT' Hw Hc Hs] Ht;
    try (rewrite Hs; lra).
  - assert (E : t == 0) by lra. rewrite Hs, E. lra.
  - assert (0 <= t * tierRate income regime)
      by (apply Qmult_le_0_compat; lra).
    revert Hs. split_max; intros; lra.
Qed.

Lemma surcharge_le_relief (T income t : Q) (regime : Regime) (s : Q)
    (k : nat) :
  SurchargeSpec income t regime s k -> In T thresholds -> inWindow T income ->
  s <= Qmax 0 (thresholdTax T regime + (income - T) - t).
Proof.
  intros [Ht0 Hs | Ht0 Hw Hs | T' Ht0 HT' Hw Hc Hs | T' Ht0 HT' Hw Hc Hs]
    HT HW.
  - rewrite Hs. apply Q.le_max_l.
  - exfalso. eapply Hw; eassumption.
  - assert (T' = T) by (eapply window_unique; eassumption); subst T'.
    rewrite Hs. split_max; lra.
  - assert (T' = T) by (eapply window_unique; eassumption); subst T'.
    rewrite Hs. lra.
Qed.

Lemma surcharge_mono_income_old (b1 b2 t s1 s2 : Q) (k1 k2 : nat) :
  SurchargeSpec b1 t Old s1 k1 -> SurchargeSpec b2 t Old s2 k2 ->
  b1 <= b2 -> 0 <= t -> t <= 0.3 * Qmax b1 5000000 - 202500 ->
  s1 <= s2.
Proof.
  intros HS1 HS2 Hb Ht Hcap.
  pose proof (surcharge_le_rate _ _ _ _ _ HS1 Ht) as U1.
  pose proof (fun T HT HW => surcharge_le_relief T _ _ _ _ _ HS1 HT HW) as W1.
  clear HS1.
  revert Hcap. split_max; intros Hcap.
  all: destruct (tierRate_cases b1 Old)
      as [[? R1]|[[? R1]|[[? R1]|[[? R1]|[? R1]]]]];
    rewrite R1 in U1; clear R1; try (exfalso; lra).
  all: destruct HS2 as [Ht0 Hs | Ht0 Hw Hs | T' Ht0 HT' Hw Hc Hs
                  | T' Ht0 HT' Hw Hc Hs].
  all: try (assert (E : t == 0) by lra; rewrite E in U1; lra).
  all: try (destruct (tierRate_cases b2 Old)
      as [[? R2]|[[? R2]|[[? R2]|[[? R2]|[? R2]]]]];
    rewrite R2 in Hs; try (rewrite R2 in Hc); clear R2; try (exfalso; lra); lra).
  all: destruct (Qlt_le_dec T' b1) as [Hin|Hout].
  all: try (assert (HW1 : inWindow T' b1) by (destruct Hw; split; lra);
            specialize (W1 T' HT' HW1); destruct Hw;
            revert Hs W1; repeat split_max; intros; lra).
  all: clear W1; destruct Hw as [Hw1 Hw2];
       repeat (destruct HT' as [<- | HT']; [ | ]); try destruct HT';
       try (exfalso; lra);
       eval_thresholdTax; revert Hs; split_max; intros; try lra.
Qed.

Lemma SurchargeSpec_total (income t : Q) (regime : Regime) :
  exists s k, SurchargeSpec income t regime s k.
Proof.
  destruct (calculateSurcharge_spec (calculateTaxPayableInternal 1)
              (fun T r HT => threshold_no_nesting T r HT) income t regime)
    as [s [k [_ HS]]].
  exists s, k. exact HS.
Qed.

(** In the old regime the tax after rebate stays below the line of the top
    slab taken at the gross income, or at the first threshold if that is
    higher. *)
Lemma afterRebate_old_cap (g d : Q) :
  0 <= d ->
  afterRebate (taxableOf g d Old) Old <= 0.3 * Qmax g 5000000 - 202500.
Proof.
  intros Hd.
  assert (Hx : taxableOf g d Old <= Qmax g 5000000 - 50000).
  { unfold taxableOf.
    destruct (stdDedIncome_cases g) as [[? ->]|[? ->]];
      repeat split_max; lra. }
  pose proof (afterRebate_mono _ _ Old Hx) as Hm.
  rewrite (afterRebate_top (Qmax g 5000000 - 50000)) in Hm; [ lra | ].
  split_max; lra.
Qed.

(** X18. What the old regime does and the new regime misses: for
    deductions that are not negative, the total tax of the old regime never
    decreases when the gross income increases. *)
Lemma old_regime_income_monotone (g1 g2 d : Q) :
  g1 <= g2 -> 0 <= d ->
  exists r1 r2,
    calculateTaxPayable g1 d Old = Some r1
    /\ calculateTaxPayable g2 d Old = Some r2
    /\ totalTax r1 <= totalTax r2.
Proof.
  intros Hg Hd.
  destruct (calculateTaxPayable_spec g1 d Old) as [s1 [k1 [E1 HS1]]].
  destruct (calculateTaxPayable_spec g2 d Old) as [s2 [k2 [E2 HS2]]].
  exists (resultWith g1 d Old s1), (resultWith g2 d Old s2).
  split; [ exact E1 | ]. split; [ exact E2 | ].
  cbn [resultWith totalTax]. cbn [surchargeBase] in HS1, HS2.
  set (t1 := afterRebate (taxableOf g1 d Old) Old) in *.
  set (t2 := afterRebate (taxableOf g2 d Old) Old) in *.
  assert (Ht : t1 <= t2)
    by (apply afterRebate_mono, taxableOf_mono_income; exact Hg).
  destruct (SurchargeSpec_total g2 t1 Old) as [s3 [k3 HS3]].
  pose proof (surcharge_mono_income_old g1 g2 t1 s1 s3 k1 k3 HS1 HS3 Hg
                (afterRebate_nonneg _ _) (afterRebate_old_cap g1 d Hd))
    as H13.
  pose proof (surcharge_mono_tax _ _ _ _ _ _ _ _ HS3 HS2 Ht) as H32.
  apply round_mono. unfold CESS_RATE. lra.
Qed.

(** * The claims *)

(** C1. Scenario 1: gross income 1,200,000, no deductions, new regime:
    taxable income 1,150,000, slab tax 82,500, no rebate, no surcharge,
    cess 3,300, total tax 85,800. *)
Theorem scenario_new_1200000 :
  exists res,
    calculateTaxPayable 1200000 0 New = Some res
    /\ taxableIncome res == 1150000
    /\ taxBeforeRebate res == 82500
    /\ rebate res == 0
    /\ surcharge res == 0
    /\ cess res == 3300
    /\ totalTax res == 85800.
Proof.
  eexists. split; [ vm_compute; reflexivity | ].
  cbn [taxableIncome taxBeforeRebate rebate surcharge cess totalTax].
  repeat split; vm_compute; reflexivity.
Qed.

(** C5. The rebate rule: in either regime the rebate is
    [min(taxBeforeRebate, rebateAmount)] when the taxable income is at most
    the regime's rebate limit, and 0 above it; the tax after rebate is the
    slab tax less the rebate, floored at 0.  Scenario 2: gross income
    600,000 in the new regime gives taxable income 550,000, rebate 12,500,
    tax after rebate 0 and total tax 0. *)
Theorem rebate_rule :
  (rebateThreshold New == 700000 /\ rebateMaxAmount New == 25000
   /\ rebateThreshold Old == 500000 /\ rebateMaxAmount Old == 12500)
  /\ (forall g d regime,
        exists res,
          calculateTaxPayable g d regime = Some res
          /\ ((taxableIncome res <= rebateThreshold regime
               /\ rebate res
                  == Qmin (taxBeforeRebate res) (rebateMaxAmount regime))
              \/ (rebateThreshold regime < taxableIncome res
                  /\ rebate res == 0))
          /\ taxAfterRebate res
             == Qmax 0 (taxBeforeRebate res - rebate res))
  /\ (exists res,
        calculateTaxPayable 600000 0 New = Some res
        /\ taxableIncome res == 550000
        /\ taxBeforeRebate res == 12500
        /\ rebate res == 12500
        /\ taxAfterRebate res == 0
        /\ surcharge res == 0
        /\ cess res == 0
        /\ totalTax res == 0).
Proof.
  split; [ | split ].
  - repeat split; reflexivity.
  - intros g d regime.
    destruct (calculateTaxPayable_spec g d regime) as [s [k [E _]]].
    exists (resultWith g d regime s). split; [ exact E | ].
    cbn [resultWith taxableIncome taxBeforeRebate rebate taxAfterRebate].
    split; [ apply rebateOf_cases | reflexivity ].
  - eexists. split; [ vm_compute; reflexivity | ].
    cbn [taxableIncome taxBeforeRebate rebate taxAfterRebate surcharge cess
         totalTax].
    repeat split; vm_compute; reflexivity.
Qed.

(** C7. In the new regime the deductions are ignored: whatever two values
    are passed, the call returns, and returns the same record. *)
Theorem new_regime_ignores_deductions (g d1 d2 : Q) :
  exists res,
    calculateTaxPayable g d1 New = Some res
    /\ calculateTaxPayable g d2 New = Some res.
Proof.
  destruct (calculateTaxPayable_spec g d1 New) as [s [k [E _]]].
  exists (resultWith g d1 New s). split; [ exact E | ].
  rewrite <- E. unfold calculateTaxPayable, callBudget.
  cbn [calculateTaxPayableInternal].
  rewrite (taxPayableBody_new_deductions _ g d2 d1). reflexivity.
Qed.

(** C8. Every field of the result is non-negative, and [totalTax] is an
    integer, the one nearest to tax before cess plus cess. *)
Theorem result_shape (g d : Q) (regime : Regime) :
  exists res,
    calculateTaxPayable g d regime = Some res
    /\ 0 <= taxableIncome res
    /\ 0 <= taxBeforeRebate res
    /\ 0 <= rebate res
    /\ 0 <= taxAfterRebate res
    /\ 0 <= surcharge res
    /\ 0 <= cess res
    /\ 0 <= taxBeforeCess res
    /\ 0 <= totalTax res
    /\ (exists z : Z, totalTax res = inject_Z z)
    /\ taxBeforeCess res + cess res - 0.5 < totalTax res
    /\ totalTax res <= taxBeforeCess res + cess res + 0.5.
Proof.
  destruct (calculateTaxPayable_spec g d regime) as [s [k [E HS]]].
  exists (resultWith g d regime s). split; [ exact E | ].
  pose proof (SurchargeSpec_nonneg _ _ _ _ _ HS) as Hs.
  cbn [resultWith taxableIncome taxBeforeRebate rebate taxAfterRebate
       surcharge cess taxBeforeCess totalTax].
  set (x := taxableOf g d regime).
  pose proof (taxableOf_nonneg g d regime) as Hx. fold x in Hx.
  pose proof (afterRebate_nonneg x regime) as Ht.
  pose proof (slabTaxClosed_nonneg x regime) as Hb.
  rewrite <- slabTaxOf_closed in Hb.
  assert (Hc : 0 <= (afterRebate x regime + s) * CESS_RATE)
    by (unfold CESS_RATE; lra).
  assert (Hr : 0 <= rebateOf x regime).
  { destruct (rebateOf_cases x regime) as [[_ Hr]|[_ Hr]]; rewrite Hr.
    - apply Q.min_glb; [ exact Hb | destruct regime; vm_compute; discriminate ].
    - lra. }
  pose proof (round_near
    (afterRebate x regime + s + (afterRebate x regime + s) * CESS_RATE))
    as [Hn1 Hn2].
  repeat split; try assumption; try lra.
  - apply round_nonneg. lra.
  - eexists. reflexivity.
Qed.

(** C6, as stated, fails for negative deductions in the old regime, which
    the code does not reject: they are added to the income.  With a gross
    income of 0 and deductions of -1,000,000 the taxable income is
    1,000,000 and the total tax 117,000. *)
Lemma negative_deductions_are_taxed :
  exists res,
    calculateTaxPayable 0 (-1000000) Old = Some res
    /\ 0 <= 0
    /\ taxableIncome res == 1000000
    /\ totalTax res == 117000
    /\ ~ taxableIncome res == 0
    /\ ~ totalTax res == 0.
Proof.
  eexists. split; [ vm_compute; reflexivity | ].
  cbn [taxableIncome totalTax].
  repeat split; try (vm_compute; reflexivity); try lra;
    vm_compute; discriminate.
Qed.

(** C6, amended.  With a gross income of zero or less, and deductions that
    in the old regime are not below the gross income (so for all deductions
    that are not negative; any deductions in the new regime), nothing is
    taxed: the taxable income is clamped to 0 and every field of the
    result, [totalTax] included, is 0.  In particular
    [calculateTaxPayable(0, 0, "new")] and [calculateTaxPayable(0, 0, "old")]
    return all zeros. *)
Theorem nonpositive_income_zero_tax (g d : Q) (regime : Regime) :
  g <= 0 -> (regime = Old -> g <= d) ->
  exists res,
    calculateTaxPayable g d regime = Some res
    /\ taxableIncome res == 0
    /\ taxBeforeRebate res == 0
    /\ rebate res == 0
    /\ taxAfterRebate res == 0
    /\ surcharge res == 0
    /\ cess res == 0
    /\ taxBeforeCess res == 0
    /\ totalTax res == 0.
Proof.
  intros Hg Hd.
  destruct (calculateTaxPayable_spec g d regime) as [s [k [E HS]]].
  exists (resultWith g d regime s). split; [ exact E | ].
  cbn [resultWith taxableIncome taxBeforeRebate rebate taxAfterRebate
       surcharge cess taxBeforeCess totalTax].
  assert (Hx : taxableOf g d regime == 0).
  { unfold taxableOf.
    destruct (stdDedIncome_cases g) as [[_ ->]|[? _]]; [ | lra ].
    destruct regime; [ | specialize (Hd eq_refl) ]; repeat split_max; lra. }
  set (x := taxableOf g d regime) in *. clearbody x.
  assert (Hlim : 500000 <= rebateThreshold regime)
    by (destruct regime; vm_compute; discriminate).
  assert (Hamt : 12500 <= rebateMaxAmount regime)
    by (destruct regime; vm_compute; discriminate).
  assert (Hb : slabTaxOf x regime == 0).
  { rewrite slabTaxOf_closed. apply Qle_antisym.
    - assert (H0 : slabTaxClosed 0 regime == 0)
        by (destruct regime; vm_compute; reflexivity).
      rewrite <- H0. apply slabTaxClosed_mono. lra.
    - apply slabTaxClosed_nonneg. }
  assert (Ht : afterRebate x regime == 0) by (apply afterRebate_low; lra).
  assert (Hr : rebateOf x regime == 0).
  { destruct (rebateOf_cases x regime) as [[_ Hr]|[_ Hr]]; rewrite Hr.
    - rewrite Q.min_l; lra.
    - reflexivity. }
  assert (Hs : s == 0) by (eapply SurchargeSpec_zero_tax; [ exact HS | lra ]).
  assert (Hc : (afterRebate x regime + s) * CESS_RATE == 0)
    by (unfold CESS_RATE; lra).
  repeat split; try assumption; try lra.
  rewrite <- round_zero. apply round_compat. lra.
Qed.

Lemma nonpositive_income_zero_tax_witness :
  (0 <= 0 /\ (Old = Old -> 0 <= 0))
  /\ (exists res,
        calculateTaxPayable 0 0 New = Some res
        /\ taxableIncome res == 0 /\ taxBeforeRebate res == 0
        /\ rebate res == 0 /\ taxAfterRebate res == 0
        /\ surcharge res == 0 /\ cess res == 0
        /\ taxBeforeCess res == 0 /\ totalTax res == 0)
  /\ (exists res,
        calculateTaxPayable 0 0 Old = Some res
        /\ taxableIncome res == 0 /\ taxBeforeRebate res == 0
        /\ rebate res == 0 /\ taxAfterRebate res == 0
        /\ surcharge res == 0 /\ cess res == 0
        /\ taxBeforeCess res == 0 /\ totalTax res == 0).
Proof.
  assert (H0 : 0 <= 0) by lra.
  assert (HN : New = Old -> 0 <= 0) by (intros _; exact H0).
  assert (HO : Old = Old -> 0 <= 0) by (intros _; exact H0).
  split; [ split; assumption | ].
  split; [ apply (nonpositive_income_zero_tax 0 0 New H0 HN)
         | apply (nonpositive_income_zero_tax 0 0 Old H0 HO) ].
Defined.

(** C9. Every call terminates, within two levels of
    [calculateTaxPayableInternal]: with any budget of at least two the call
    returns, it performs at most one nested tax computation, and the
    result does not depend on the budget.  The reason is that the income
    that selects the surcharge rate in the nested computation at a
    threshold lies in no relief window, so that computation completes on
    its own, with no nested computation. *)
Theorem bounded_recursion (n : nat) (g d : Q) (regime : Regime) :
  exists res k,
    calculateTaxPayableInternal (2 + n) g d regime taxDataFY2024_25
    = Some (res, k)
    /\ (k <= 1)%nat
    /\ calculateTaxPayable g d regime = Some res
    /\ Forall
         (fun T =>
            Forall (fun T' => ~ inWindow T' (surchargeBase T regime))
              thresholds
            /\ exists r,
                 calculateTaxPayableInternal 1 T 0 regime taxDataFY2024_25
                 = Some (r, 0%nat))
         thresholds.
Proof.
  destruct (calculateTaxPayableInternal_spec n g d regime)
    as [s [k [E HS]]].
  exists (resultWith g d regime s), k.
  split; [ exact E | ].
  split; [ eapply SurchargeSpec_calls; exact HS | ].
  split.
  - unfold calculateTaxPayable, callBudget.
    rewrite (depth_irrelevant 14), <- (depth_irrelevant n).
    cbn [Nat.add] in E. rewrite E. reflexivity.
  - apply Forall_forall. intros T HT. split.
    + assert (Hg : 5000000 <= T)
        by (repeat (destruct HT as [<- | HT]; [ lra | ]); destruct HT).
      pose proof (surchargeBase_above T regime ltac:(lra)) as Hb.
      apply Forall_forall. intros T' HT' [W1 W2].
      repeat (destruct HT as [<- | HT]; [ | ]); try destruct HT;
        repeat (destruct HT' as [<- | HT']; [ | ]); try destruct HT';
        destruct regime; lra.
    + destruct (threshold_no_nesting T regime HT) as [r [Er _]].
      exists r. exact Er.
Qed.

(** C10. In the old regime, for a fixed gross income, the total tax does
    not increase when the deductions increase. *)
Theorem old_regime_deductions_monotone (g d1 d2 : Q) :
  d1 <= d2 ->
  exists r1 r2,
    calculateTaxPayable g d1 Old = Some r1
    /\ calculateTaxPayable g d2 Old = Some r2
    /\ totalTax r2 <= totalTax r1.
Proof.
  intros Hd.
  destruct (calculateTaxPayable_spec g d1 Old) as [s1 [k1 [E1 HS1]]].
  destruct (calculateTaxPayable_spec g d2 Old) as [s2 [k2 [E2 HS2]]].
  exists (resultWith g d1 Old s1), (resultWith g d2 Old s2).
  split; [ exact E1 | ]. split; [ exact E2 | ].
  cbn [resultWith totalTax].
  pose proof (afterRebate_mono _ _ Old (taxableOf_anti_deductions g _ _ Hd))
    as Ht.
  pose proof (surcharge_mono_tax _ _ _ _ _ _ _ _ HS2 HS1 Ht) as Hsum.
  apply round_mono. unfold CESS_RATE. lra.
Qed.

Lemma old_regime_deductions_monotone_witness :
  150000 <= 400000
  /\ exists r1 r2,
       calculateTaxPayable 1500000 150000 Old = Some r1
       /\ calculateTaxPayable 1500000 400000 Old = Some r2
       /\ totalTax r2 <= totalTax r1.
Proof.
  split; [ lra | apply (old_regime_deductions_monotone 1500000 150000 400000);
                 lra ].
Defined.

(** C2, as stated, fails: in the old regime with deductions the relief
    comparison still uses the tax on the threshold computed with no
    deductions, so no relief is granted and the total tax jumps by far more
    than the income.  At the threshold 5,000,000 with deductions of
    1,000,000 the total tax is 1,037,400; at 5,000,100 it is 1,141,174. *)
Lemma marginal_relief_fails_with_deductions :
  ~ (forall (T d eps : Q) (regime : Regime) (r1 r2 : TaxResult),
       In T thresholds -> 0 <= eps -> eps <= T * 0.05 ->
       calculateTaxPayable T d regime = Some r1 ->
       calculateTaxPayable (T + eps) d regime = Some r2 ->
       totalTax r2 <= totalTax r1 + eps + (eps * CESS_RATE + 1)).
Proof.
  intros H.
  destruct (calculateTaxPayable 5000000 1000000 Old) as [r1|] eqn:E1;
    [ | vm_compute in E1; discriminate ].
  destruct (calculateTaxPayable (5000000 + 100) 1000000 Old) as [r2|] eqn:E2;
    [ | vm_compute in E2; discriminate ].
  specialize (H 5000000 1000000 100 Old r1 r2 ltac:(in_thresholds)
                ltac:(lra) ltac:(lra) E1 E2).
  vm_compute in E1. injection E1 as <-.
  vm_compute in E2. injection E2 as <-.
  vm_compute in H. apply H. reflexivity.
Qed.

(** C2, amended.  With no deductions in the old regime (the case the relief
    comparison assumes), and for any deductions in the new regime, where
    they are ignored: for every threshold [T] of the surcharge table and
    every increment [eps] within the relief window ([0 <= eps <= T * 0.05]),
    the tax before cess at gross income [T + eps] is at most the tax before
    cess at [T] plus [eps], and the total tax at [T + eps] exceeds the total
    tax at [T] plus [eps] by at most the cess on [eps] and one unit of
    rounding. *)
Theorem marginal_relief_zero_deductions (T d eps : Q) (regime : Regime) :
  In T thresholds -> 0 <= eps -> eps <= T * 0.05 ->
  (regime = Old -> d == 0) ->
  exists r1 r2,
    calculateTaxPayable T d regime = Some r1
    /\ calculateTaxPayable (T + eps) d regime = Some r2
    /\ taxBeforeCess r2 <= taxBeforeCess r1 + eps
    /\ totalTax r2 <= totalTax r1 + eps + (eps * CESS_RATE + 1).
Proof.
  intros HT He0 He1 Hd.
  destruct (calculateTaxPayable_spec T d regime) as [s1 [k1 [E1 HS1]]].
  destruct (calculateTaxPayable_spec (T + eps) d regime)
    as [s2 [k2 [E2 HS2]]].
  exists (resultWith T d regime s1), (resultWith (T + eps) d regime s2).
  split; [ exact E1 | ]. split; [ exact E2 | ].
  cbn [resultWith taxBeforeCess totalTax].
  pose proof (relief_across_threshold T d eps regime s1 s2 k1 k2
                HT He0 He1 Hd HS1 HS2) as Hmain.
  split; [ exact Hmain | ].
  set (a1 := afterRebate (taxableOf T d regime) regime + s1) in *.
  set (a2 := afterRebate (taxableOf (T + eps) d regime) regime + s2) in *.
  pose proof (round_near (a1 + a1 * CESS_RATE)) as [L1 _].
  pose proof (round_near (a2 + a2 * CESS_RATE)) as [_ U2].
  unfold CESS_RATE in *. lra.
Qed.

Lemma marginal_relief_zero_deductions_witness :
  (In 10000000 thresholds /\ 0 <= 100 /\ 100 <= 10000000 * 0.05
   /\ (Old = Old -> 0 == 0))
  /\ exists r1 r2,
       calculateTaxPayable 10000000 0 Old = Some r1
       /\ calculateTaxPayable (10000000 + 100) 0 Old = Some r2
       /\ taxBeforeCess r2 <= taxBeforeCess r1 + 100
       /\ totalTax r2 <= totalTax r1 + 100 + (100 * CESS_RATE + 1).
Proof.
  assert (HT : In 10000000 thresholds) by (right; left; reflexivity).
  assert (H0 : 0 <= 100) by lra.
  assert (H1 : 100 <= 10000000 * 0.05) by lra.
  assert (Hd : Old = Old -> 0 == 0) by (intros _; reflexivity).
  split; [ repeat split; assumption | ].
  apply (marginal_relief_zero_deductions 10000000 0 100 Old HT H0 H1 Hd).
Defined.

(** C3, as stated, fails: the value compared against is the
    [taxBeforeCess] of a complete nested tax computation at the threshold,
    surcharge included.  At the threshold 10,000,000 in the old regime the
    nested call returns a surcharge of 279,750 and a tax before cess of
    3,077,250, while the tax after rebate there is 2,797,500. *)
Lemma taxOnThreshold_includes_surcharge :
  exists r,
    calculateTaxPayableInternal 1 10000000 0 Old taxDataFY2024_25
    = Some (r, 0%nat)
    /\ thresholdTax 10000000 Old = taxBeforeCess r
    /\ surcharge r == 279750
    /\ taxBeforeCess r == 3077250
    /\ specTaxOnThreshold 10000000 Old == 2797500
    /\ ~ taxBeforeCess r == specTaxOnThreshold 10000000 Old.
Proof.
  eexists. split; [ vm_compute; reflexivity | ].
  split; [ vm_compute; reflexivity | ].
  cbn [surcharge taxBeforeCess].
  repeat split; try (vm_compute; reflexivity).
  vm_compute. discriminate.
Qed.

(** C3, amended.  For every threshold [T] and regime, the value compared
    against in the relief phase is the [taxBeforeCess] of the nested call
    [calculateTaxPayableInternal(T, 0, regime)].  That call runs the
    surcharge computation once more (with no further nesting), so the value
    is the tax after rebate at gross income [T] plus the surcharge at [T]'s
    own tier rate; it equals the tax after rebate alone exactly at the
    lowest threshold, where that rate is zero.  Every income in the window
    of [T] with a positive tax is compared against this value. *)
Theorem taxOnThreshold_is_nested_tax_before_cess (n : nat) (T : Q)
    (regime : Regime) :
  In T thresholds ->
  exists r,
    calculateTaxPayableInternal (S n) T 0 regime taxDataFY2024_25
    = Some (r, 0%nat)
    /\ taxAfterRebate r == specTaxOnThreshold T regime
    /\ surcharge r
       == specTaxOnThreshold T regime
          * tierRate (surchargeBase T regime) regime
    /\ taxBeforeCess r == specTaxOnThreshold T regime + surcharge r
    /\ (taxBeforeCess r == specTaxOnThreshold T regime <-> T = 5000000)
    /\ (forall income t,
          inWindow T income -> 0 < t ->
          exists s,
            calculateSurcharge (calculateTaxPayableInternal (S n))
              income t regime
            = Some (s, 1%nat)
            /\ ((income - T
                 < t + t * tierRate income regime - taxBeforeCess r
                 /\ s == Qmax 0 (taxBeforeCess r + (income - T) - t))
                \/ (t + t * tierRate income regime - taxBeforeCess r
                    <= income - T
                    /\ s == t * tierRate income regime))).
Proof.
  intros HT.
  destruct (threshold_no_nesting T regime HT) as [r [Er Kr]].
  exists r.
  split; [ rewrite nested_at_threshold; assumption | ].
  assert (Hvalues :
    taxAfterRebate r == specTaxOnThreshold T regime
    /\ surcharge r
       == specTaxOnThreshold T regime
          * tierRate (surchargeBase T regime) regime
    /\ taxBeforeCess r == specTaxOnThreshold T regime + surcharge r
    /\ (taxBeforeCess r == specTaxOnThreshold T regime <-> T = 5000000)).
  { clear Kr.
    repeat (destruct HT as [<- | HT];
      [ destruct regime; vm_compute in Er; injection Er as <-;
        cbn [taxAfterRebate surcharge taxBeforeCess];
        (split; [ vm_compute; reflexivity | ]);
        (split; [ vm_compute; reflexivity | ]);
        (split; [ vm_compute; reflexivity | ]);
        (split; [ intros H; try reflexivity; vm_compute in H; discriminate
                | intros H; try discriminate; vm_compute; reflexivity ]) | ]).
    destruct HT. }
  destruct Hvalues as [V1 [V2 [V3 V4]]].
  repeat (split; [ assumption | ]).
  intros income t HW Ht.
  destruct (calculateSurcharge_spec (calculateTaxPayableInternal (S n))
              (fun T' r' HT' =>
                 eq_ind_r
                   (fun c => exists r0, c = Some (r0, 0%nat)
                      /\ taxBeforeCess r0 = thresholdTax T' r')
                   (threshold_no_nesting T' r' HT')
                   (nested_at_threshold n T' r' HT'))
              income t regime) as [s [k [E HS]]].
  exists s. rewrite Kr.
  destruct HS as [Ht0 Hs | Ht0 Hw Hs | T' Ht0 HT' Hw Hc Hs
                 | T' Ht0 HT' Hw Hc Hs].
  - exfalso. lra.
  - exfalso. eapply Hw; eassumption.
  - assert (T' = T) by (eapply window_unique; eassumption); subst T'.
    split; [ exact E | right; split; assumption ].
  - assert (T' = T) by (eapply window_unique; eassumption); subst T'.
    split; [ exact E | left; split; assumption ].
Qed.

Lemma taxOnThreshold_is_nested_tax_before_cess_witness :
  In 10000000 thresholds
  /\ exists r,
       calculateTaxPayableInternal 2 10000000 0 Old taxDataFY2024_25
       = Some (r, 0%nat)
       /\ taxAfterRebate r == specTaxOnThreshold 10000000 Old
       /\ surcharge r
          == specTaxOnThreshold 10000000 Old
             * tierRate (surchargeBase 10000000 Old) Old
       /\ taxBeforeCess r == specTaxOnThreshold 10000000 Old + surcharge r
       /\ (taxBeforeCess r == specTaxOnThreshold 10000000 Old
           <-> 10000000 = 5000000)
       /\ (forall income t,
             inWindow 10000000 income -> 0 < t ->
             exists s,
               calculateSurcharge (calculateTaxPayableInternal 2)
                 income t Old
               = Some (s, 1%nat)
               /\ ((income - 10000000
                    < t + t * tierRate income Old - taxBeforeCess r
                    /\ s == Qmax 0 (taxBeforeCess r + (income - 10000000) - t))
                   \/ (t + t * tierRate income Old - taxBeforeCess r
                       <= income - 10000000
                       /\ s == t * tierRate income Old))).
Proof.
  assert (HT : In 10000000 thresholds) by (right; left; reflexivity).
  split; [ exact HT | ].
  apply (taxOnThreshold_is_nested_tax_before_cess 1 10000000 Old HT).
Defined.

(** C4 fails on the code.  In the new regime the surcharge rate is chosen
    by the income after the standard deduction, but the tax on the
    threshold is computed with the threshold as gross income, that is, for
    an income 50,000 below it.  Just past the threshold 10,000,000 the
    relief therefore brings the tax below the tax at the threshold: the
    total tax is 3,088,800 at gross income 10,050,000 and 3,071,744 at
    10,050,100. *)
Theorem new_regime_tax_drops_past_threshold :
  exists r1 r2,
    calculateTaxPayable 10050000 0 New = Some r1
    /\ calculateTaxPayable 10050100 0 New = Some r2
    /\ 10050000 <= 10050100
    /\ totalTax r1 == 3088800
    /\ totalTax r2 == 3071744
    /\ totalTax r2 < totalTax r1.
Proof.
  eexists. eexists.
  split; [ vm_compute; reflexivity | ].
  split; [ vm_compute; reflexivity | ].
  cbn [totalTax].
  repeat split; try (vm_compute; reflexivity). lra.
Qed.
(** * Further properties of the tax engine *)

Lemma afterRebate_le_slab (x : Q) (regime : Regime) :
  afterRebate x regime <= slabTaxClosed x regime.
Proof.
  destruct (Qlt_le_dec (rebateThreshold regime) x) as [H|H].
  - rewrite (afterRebate_high _ _ H). lra.
  - rewrite (afterRebate_low _ _ H). apply slabTaxClosed_nonneg.
Qed.

Lemma slabTaxClosed_zero (regime : Regime) : slabTaxClosed 0 regime == 0.
Proof. destruct regime; vm_compute; reflexivity. Qed.

(** The slab tax is at most 30% of the taxable income. *)
Lemma slabTaxClosed_le_top_rate (x : Q) (regime : Regime) :
  0 <= x -> slabTaxClosed x regime <= 0.3 * x.
Proof.
  intros Hx. pose proof (slabTaxClosed_slope 0 x regime Hx) as H.
  rewrite slabTaxClosed_zero in H. lra.
Qed.

Lemma tierRate_le_top (income : Q) (regime : Regime) :
  tierRate income regime <= match regime with New => 0.25 | Old => 0.37 end.
Proof.
  destruct (tierRate_cases income regime)
    as [[_ H]|[[_ H]|[[_ H]|[[_ H]|[_ H]]]]];
    rewrite H; destruct regime; lra.
Qed.

Lemma tierRate_mono (i1 i2 : Q) (regime : Regime) :
  i1 <= i2 -> tierRate i1 regime <= tierRate i2 regime.
Proof.
  intros H.
  destruct (tierRate_cases i1 regime)
    as [[? H1]|[[? H1]|[[? H1]|[[? H1]|[? H1]]]]];
  destruct (tierRate_cases i2 regime)
    as [[? H2]|[[? H2]|[[? H2]|[[? H2]|[? H2]]]]];
  rewrite H1, H2; destruct regime; lra.
Qed.

(** X1. The slab tax vanishes exactly up to the basic exemption of the
    regime's table: [calculateSlabTax] on the regime's slabs is 0 if and
    only if the taxable income is at most [basicExemption]. *)
Theorem slab_tax_zero_iff_basic_exemption (x : Q) (regime : Regime) :
  calculateSlabTax x (slabs (regimeDataOf regime taxDataFY2024_25)) == 0
  <-> x <= basicExemption (regimeDataOf regime taxDataFY2024_25).
Proof.
  change (calculateSlabTax x (slabs (regimeDataOf regime taxDataFY2024_25)))
    with (slabTaxOf x regime).
  rewrite slabTaxOf_closed.
  destruct regime;
    cbv [slabTaxClosed slabTaxNew slabTaxOld hinge regimeDataOf
         taxDataFY2024_25 newRegime oldRegime basicExemption];
    split; intros H; revert H; repeat split_max; intros; lra.
Qed.



Lemma slabTaxClosed_above_rebateThreshold (x : Q) (regime : Regime) :
  rebateThreshold regime < x -> rebateMaxAmount regime < slabTaxClosed x regime.
Proof.
  destruct regime;
    cbv [rebateThreshold rebateMaxAmount regimeDataOf taxDataFY2024_25
         newRegime oldRegime rebateLimit rebateAmount slabTaxClosed
         slabTaxNew slabTaxOld hinge];
    intros H; repeat split_max; lra.
Qed.

(** X3. The rebate band and its cliff.  While the taxable income is at most
    the regime's rebate limit the whole tax is rebated: tax after rebate,
    surcharge, cess and total tax are 0.  As soon as it exceeds the limit
    nothing is rebated, and both the tax after rebate and the total tax
    exceed the maximum rebate. *)
Theorem rebate_band_and_cliff (g d : Q) (regime : Regime) :
  exists res,
    calculateTaxPayable g d regime = Some res
    /\ ((taxableIncome res <= rebateThreshold regime
         /\ rebate res == taxBeforeRebate res
         /\ taxAfterRebate res == 0
         /\ surcharge res == 0
         /\ cess res == 0
         /\ totalTax res == 0)
        \/ (rebateThreshold regime < taxableIncome res
            /\ rebate res == 0
            /\ rebateMaxAmount regime < taxAfterRebate res
            /\ rebateMaxAmount regime < totalTax res)).
Proof.
  destruct (calculateTaxPayable_spec g d regime) as [s [k [E HS]]].
  exists (resultWith g d regime s). split; [ exact E | ].
  cbn [resultWith taxableIncome taxBeforeRebate rebate taxAfterRebate
       surcharge cess totalTax].
  set (x := taxableOf g d regime) in *. clearbody x.
  pose proof (SurchargeSpec_nonneg _ _ _ _ _ HS) as Hs0.
  destruct (Qlt_le_dec (rebateThreshold regime) x) as [Hx|Hx].
  - right.
    pose proof (afterRebate_high x regime Hx) as Ht.
    pose proof (slabTaxClosed_above_rebateThreshold x regime Hx) as Hc.
    destruct (rebateOf_cases x regime) as [[Hle _]|[_ Hr]]; [ lra | ].
    pose proof (round_near (afterRebate x regime + s
                            + (afterRebate x regime + s) * CESS_RATE))
      as [Hn _].
    assert (Ha : 12500 <= rebateMaxAmount regime)
      by (destruct regime; vm_compute; discriminate).
    unfold CESS_RATE in *.
    repeat split; try assumption; lra.
  - left.
    pose proof (afterRebate_low x regime Hx) as Ht.
    assert (Hs : s == 0)
      by (eapply SurchargeSpec_zero_tax; [ exact HS | lra ]).
    assert (Hr : rebateOf x regime == slabTaxOf x regime).
    { destruct (rebateOf_cases x regime) as [[_ Hr]|[Hgt _]]; [ | lra ].
      rewrite Hr. apply Q.min_l.
      rewrite slabTaxOf_closed, <- slabTaxClosed_at_rebateThreshold.
      apply slabTaxClosed_mono. exact Hx. }
    assert (Hc : (afterRebate x regime + s) * CESS_RATE == 0)
      by (unfold CESS_RATE; lra).
    repeat split; try assumption.
    rewrite <- round_zero. apply round_compat. lra.
Qed.

(** X4. Marginal relief only ever lowers the surcharge: the surcharge of a
    result is never negative and never more than the tax after rebate
    times the rate of the income's tier, which is at most 37% in the old
    regime and 25% in the new one. *)
Theorem surcharge_bounds (g d : Q) (regime : Regime) :
  exists res,
    calculateTaxPayable g d regime = Some res
    /\ 0 <= surcharge res
    /\ surcharge res
       <= taxAfterRebate res * tierRate (surchargeBase g regime) regime
    /\ surcharge res
       <= taxAfterRebate res * match regime with New => 0.25 | Old => 0.37 end.
Proof.
  destruct (calculateTaxPayable_spec g d regime) as [s [k [E HS]]].
  exists (resultWith g d regime s). split; [ exact E | ].
  cbn [resultWith taxAfterRebate surcharge].
  pose proof (afterRebate_nonneg (taxableOf g d regime) regime) as Ht.
  pose proof (surcharge_le_rate _ _ _ _ _ HS Ht) as Hu.
  split; [ eapply SurchargeSpec_nonneg; exact HS | ].
  split; [ exact Hu | ].
  eapply Qle_trans; [ exact Hu | ].
  rewrite !(Qmult_comm (afterRebate (taxableOf g d regime) regime)).
  apply Qmult_le_compat_r; [ apply tierRate_le_top | exact Ht ].
Qed.

(** X5. Up to a gross income of 5,000,000 no surcharge is charged, in
    either regime and whatever the deductions: the tax before cess is the
    tax after rebate. *)
Theorem no_surcharge_up_to_first_threshold (g d : Q) (regime : Regime) :
  g <= 5000000 ->
  exists res,
    calculateTaxPayable g d regime = Some res
    /\ surcharge res == 0
    /\ taxBeforeCess res == taxAfterRebate res.
Proof.
  intros Hg.
  destruct (calculateTaxPayable_spec g d regime) as [s [k [E HS]]].
  exists (resultWith g d regime s). split; [ exact E | ].
  cbn [resultWith taxAfterRebate surcharge taxBeforeCess].
  pose proof (afterRebate_nonneg (taxableOf g d regime) regime) as Ht.
  pose proof (surcharge_le_rate _ _ _ _ _ HS Ht) as Hu.
  pose proof (SurchargeSpec_nonneg _ _ _ _ _ HS) as Hs0.
  assert (Hb : surchargeBase g regime <= 5000000).
  { destruct regime; cbn [surchargeBase]; [ | exact Hg ].
    destruct (stdDedIncome_cases g) as [[? ->]|[? ->]];
      repeat split_max; lra. }
  destruct (tierRate_cases (surchargeBase g regime) regime)
    as [[_ Hr]|[[? _]|[[? _]|[[? _]|[? _]]]]]; try lra.
  rewrite Hr in Hu. lra.
Qed.

Lemma no_surcharge_up_to_first_threshold_witness :
  4000000 <= 5000000
  /\ exists res,
       calculateTaxPayable 4000000 0 Old = Some res
       /\ surcharge res == 0
       /\ taxBeforeCess res == taxAfterRebate res.
Proof.
  assert (H : 4000000 <= 5000000) by lra.
  split; [ exact H | ].
  apply (no_surcharge_up_to_first_threshold 4000000 0 Old H).
Defined.

Lemma taxableOf_le_income (g d : Q) (regime : Regime) :
  0 <= g -> (regime = Old -> 0 <= d) -> taxableOf g d regime <= g.
Proof.
  intros Hg Hd. unfold taxableOf.
  destruct (stdDedIncome_cases g) as [[? ->]|[? ->]];
    destruct regime; try specialize (Hd eq_refl); repeat split_max; lra.
Qed.

(** X6. Tax never takes the whole income.  For a gross income that is not
    negative (and deductions that are not negative in the old regime), the
    tax before cess is at most 30% of the gross income raised by the top
    surcharge rate (41.1% in the old regime, 37.5% in the new one), and
    the total tax never exceeds the gross income. *)
Theorem total_tax_below_income (g d : Q) (regime : Regime) :
  0 <= g -> (regime = Old -> 0 <= d) ->
  exists res,
    calculateTaxPayable g d regime = Some res
    /\ taxBeforeCess res
       <= match regime with New => 0.375 | Old => 0.411 end * g
    /\ totalTax res <= g.
Proof.
  intros Hg Hd.
  destruct (calculateTaxPayable_spec g d regime) as [s [k [E HS]]].
  exists (resultWith g d regime s). split; [ exact E | ].
  cbn [resultWith taxBeforeCess totalTax].
  pose proof (taxableOf_le_income g d regime Hg Hd) as Hx.
  pose proof (taxableOf_nonneg g d regime) as Hx0.
  set (x := taxableOf g d regime) in *. clearbody x.
  pose proof (afterRebate_nonneg x regime) as Ht0.
  pose proof (afterRebate_le_slab x regime) as Hts.
  pose proof (slabTaxClosed_le_top_rate x regime Hx0) as Hsl.
  pose proof (surcharge_le_rate _ _ _ _ _ HS Ht0) as Hu.
  pose proof (SurchargeSpec_nonneg _ _ _ _ _ HS) as Hs0.
  assert (Hcap : s <= afterRebate x regime
                      * match regime with New => 0.25 | Old => 0.37 end).
  { eapply Qle_trans; [ exact Hu | ].
    rewrite !(Qmult_comm (afterRebate x regime)).
    apply Qmult_le_compat_r; [ apply tierRate_le_top | exact Ht0 ]. }
  assert (Hbc : afterRebate x regime + s
                <= match regime with New => 0.375 | Old => 0.411 end * g)
    by (destruct regime; lra).
  split; [ exact Hbc | ].
  destruct (Qlt_le_dec (rebateThreshold regime) x) as [Hhigh|Hlow].
  - assert (Hthr : 500000 <= rebateThreshold regime)
      by (destruct regime; vm_compute; discriminate).
    pose proof (round_near (afterRebate x regime + s
                            + (afterRebate x regime + s) * CESS_RATE))
      as [_ Hn].
    unfold CESS_RATE in *. destruct regime; lra.
  - pose proof (afterRebate_low x regime Hlow) as Ht.
    assert (Hs : s == 0)
      by (eapply SurchargeSpec_zero_tax; [ exact HS | lra ]).
    assert (Hz : round (afterRebate x regime + s
                        + (afterRebate x regime + s) * CESS_RATE) == 0).
    { rewrite <- round_zero. apply round_compat. unfold CESS_RATE. lra. }
    lra.
Qed.

Lemma total_tax_below_income_witness :
  (0 <= 60000000 /\ (Old = Old -> 0 <= 0))
  /\ exists res,
       calculateTaxPayable 60000000 0 Old = Some res
       /\ taxBeforeCess res <= 0.411 * 60000000
       /\ totalTax res <= 60000000.
Proof.
  assert (Hg : 0 <= 60000000) by lra.
  assert (Hd : Old = Old -> 0 <= 0) by (intros _; lra).
  split; [ split; assumption | ].
  apply (total_tax_below_income 60000000 0 Old Hg Hd).
Defined.

Lemma old_regime_income_monotone_witness :
  (9000000 <= 10400000 /\ 0 <= 200000)
  /\ exists r1 r2,
       calculateTaxPayable 9000000 200000 Old = Some r1
       /\ calculateTaxPayable 10400000 200000 Old = Some r2
       /\ totalTax r1 <= totalTax r2.
Proof.
  assert (Hg : 9000000 <= 10400000) by lra.
  assert (Hd : 0 <= 200000) by lra.
  split; [ split; assumption | ].
  apply (old_regime_income_monotone 9000000 10400000 200000 Hg Hd).
Defined.

Lemma afterRebate_new_le_old (x : Q) : afterRebate x New <= afterRebate x Old.
Proof.
  destruct (Qlt_le_dec 700000 x) as [H|H].
  - rewrite (afterRebate_high x New), (afterRebate_high x Old);
      try (cbv [rebateThreshold regimeDataOf taxDataFY2024_25 newRegime
                oldRegime rebateLimit]; lra).
    cbv [slabTaxClosed slabTaxNew slabTaxOld hinge].
    repeat split_max; lra.
  - rewrite (afterRebate_low x New); [ apply afterRebate_nonneg | ].
    cbv [rebateThreshold regimeDataOf taxDataFY2024_25 newRegime rebateLimit].
    exact H.
Qed.

(** Tax plus surcharge of the new regime, on the income after the standard
    deduction, against tax plus surcharge of the old regime, on the gross
    income, for the same taxable income above the first threshold. *)
Lemma surcharge_new_le_old (g bn tn to sn so : Q) (kn ko : nat) :
  5000000 < g ->
  bn == g - 50000 ->
  tn == 0.3 * (g - 50000) - 300000 ->
  to == 0.3 * (g - 50000) - 187500 ->
  SurchargeSpec bn tn New sn kn ->
  SurchargeSpec g to Old so ko ->
  tn + sn <= to + so.
Proof.
  intros Hg Hbn Htn Hto HSn HSo.
  assert (Htn0 : 0 <= tn) by lra.
  pose proof (surcharge_le_rate _ _ _ _ _ HSn Htn0) as U1.
  pose proof (fun T HT HW => surcharge_le_relief T _ _ _ _ _ HSn HT HW) as W1.
  clear HSn.
  destruct (tierRate_cases bn New)
    as [[? R1]|[[? R1]|[[? R1]|[[? R1]|[? R1]]]]];
    rewrite R1 in U1; clear R1.
  all: destruct HSo as [Ht0 Hs | Ht0 Hw Hs | T' Ht0 HT' Hw Hc Hs
                       | T' Ht0 HT' Hw Hc Hs]; try (exfalso; lra).
  all: try (destruct (tierRate_cases g Old)
      as [[? R2]|[[? R2]|[[? R2]|[[? R2]|[? R2]]]]];
    rewrite R2 in Hs; try (rewrite R2 in Hc); clear R2;
    try (exfalso; lra); lra).
  all: destruct Hw as [Hw1 Hw2];
       repeat (destruct HT' as [<- | HT']; [ | ]); try destruct HT';
       try (exfalso; lra).
  all: match goal with
       | Hw : ?T < ?x, _ : ?x <= ?T * 1.05 |- _ =>
           destruct (Qlt_le_dec T bn) as [Hin|Hout];
           [ assert (HW1 : inWindow T bn) by (split; lra);
             specialize (W1 T ltac:(in_thresholds) HW1)
           | clear W1 ]
       end.
  all: eval_thresholdTax; revert Hs; try revert W1;
       repeat split_max; intros; lra.
Qed.

(** X7. With no deductions the new regime is never dearer than the old
    one: for every gross income, tax before cess and total tax of the new
    regime are at most those of the old regime with deductions 0. *)
Theorem new_regime_at_most_old_without_deductions (g d : Q) :
  exists rn ro,
    calculateTaxPayable g d New = Some rn
    /\ calculateTaxPayable g 0 Old = Some ro
    /\ taxBeforeCess rn <= taxBeforeCess ro
    /\ totalTax rn <= totalTax ro.
Proof.
  destruct (calculateTaxPayable_spec g d New) as [sn [kn [En HSn]]].
  destruct (calculateTaxPayable_spec g 0 Old) as [so [ko [Eo HSo]]].
  exists (resultWith g d New sn), (resultWith g 0 Old so).
  split; [ exact En | ]. split; [ exact Eo | ].
  cbn [resultWith taxBeforeCess totalTax].
  cbn [surchargeBase] in HSn, HSo.
  assert (Hx : taxableOf g d New <= taxableOf g 0 Old)
    by (unfold taxableOf; repeat split_max; lra).
  pose proof (afterRebate_mono _ _ New Hx) as Hm.
  pose proof (afterRebate_new_le_old (taxableOf g 0 Old)) as Hno.
  pose proof (afterRebate_nonneg (taxableOf g d New) New) as Htn0.
  pose proof (SurchargeSpec_nonneg _ _ _ _ _ HSo) as Hso0.
  assert (Hmain :
    afterRebate (taxableOf g d New) New + sn
    <= afterRebate (taxableOf g 0 Old) Old + so).
  { destruct (Qlt_le_dec 5000000 g) as [Hg|Hg].
    - pose proof (taxableOf_above_threshold g d New ltac:(lra)
                    ltac:(discriminate)) as Hxn.
      pose proof (taxableOf_above_threshold g 0 Old ltac:(lra)
                    ltac:(intros _; reflexivity)) as Hxo.
      pose proof (afterRebate_top (taxableOf g d New) New ltac:(lra)) as Htn.
      pose proof (afterRebate_top (taxableOf g 0 Old) Old ltac:(lra)) as Hto.
      pose proof (stdDedIncome_above g ltac:(lra)) as Hb.
      cbv beta iota in Htn, Hto.
      apply (surcharge_new_le_old g (stdDedIncome g) _ _ sn so kn ko Hg Hb);
        [ lra | lra | exact HSn | exact HSo ].
    - pose proof (surcharge_le_rate _ _ _ _ _ HSn Htn0) as U.
      assert (Hb : stdDedIncome g <= 5000000).
      { destruct (stdDedIncome_cases g) as [[? ->]|[? ->]];
          repeat split_max; lra. }
      destruct (tierRate_cases (stdDedIncome g) New)
        as [[_ Hr]|[[? _]|[[? _]|[[? _]|[? _]]]]]; try lra.
      rewrite Hr in U. lra. }
  split; [ exact Hmain | ].
  apply round_mono. unfold CESS_RATE. lra.
Qed.

(** * The calculators of the deductions page *)




(** X9. The HRA exemption.  For a salary, dearness allowance, HRA and rent
    that are not negative, the exemption is never negative and never above
    the HRA received, the rent paid or half the salary; it is 0 exactly
    when one of the three amounts it is the least of is 0 (in particular
    when the rent is at most 10% of the salary); and living in a metro
    city never lowers it. *)
Theorem hra_exemption_bounds (basic hra rent : Q) (da : option Q)
    (city : DeductionsPage.MetroCity) :
  0 <= basic -> 0 <= DeductionsPage.orZero da -> 0 <= hra -> 0 <= rent ->
  let salary := basic + DeductionsPage.orZero da in
  let exemption c :=
    DeductionsPage.calculateHraExemption
      (DeductionsPage.mkHraFormData basic da hra rent c) in
  0 <= exemption city
  /\ exemption city <= hra
  /\ exemption city <= rent
  /\ exemption city <= 0.5 * salary
  /\ exemption DeductionsPage.no <= exemption DeductionsPage.yes
  /\ (exemption city == 0
      <-> hra == 0 \/ rent <= 0.1 * salary \/ salary == 0).
Proof.
  intros Hb Hda Hh Hr.
  cbv [DeductionsPage.calculateHraExemption DeductionsPage.basicSalary
       DeductionsPage.da DeductionsPage.hraReceived DeductionsPage.rentPaid
       DeductionsPage.metroCity].
  set (o := DeductionsPage.orZero da) in *. clearbody o.
  repeat split.
  all: destruct city; repeat split_max; lra.
Qed.

Lemma hra_exemption_bounds_witness :
  (0 <= 600000 /\ 0 <= DeductionsPage.orZero (Some 60000) /\ 0 <= 240000
   /\ 0 <= 180000)
  /\ let salary := 600000 + DeductionsPage.orZero (Some 60000) in
     let exemption c :=
       DeductionsPage.calculateHraExemption
         (DeductionsPage.mkHraFormData 600000 (Some 60000) 240000 180000 c) in
     0 <= exemption DeductionsPage.no
     /\ exemption DeductionsPage.no <= 240000
     /\ exemption DeductionsPage.no <= 180000
     /\ exemption DeductionsPage.no <= 0.5 * salary
     /\ exemption DeductionsPage.no <= exemption DeductionsPage.yes
     /\ (exemption DeductionsPage.no == 0
         <-> 240000 == 0 \/ 180000 <= 0.1 * salary \/ salary == 0).
Proof.
  assert (Hb : 0 <= 600000) by lra.
  assert (Hda : 0 <= DeductionsPage.orZero (Some 60000))
    by (vm_compute; discriminate).
  assert (Hh : 0 <= 240000) by lra.
  assert (Hr : 0 <= 180000) by lra.
  split; [ repeat split; assumption | ].
  apply (hra_exemption_bounds 600000 240000 180000 (Some 60000)
           DeductionsPage.no Hb Hda Hh Hr).
Defined.

(** * The rate calculator of the surcharge page *)

(** X10. The surcharge page and the tax engine agree on the rate: for every
    income the rate the page shows is the rate [calculateSurcharge] of the
    engine selects in the old regime, and the engine's rate in the new
    regime is that rate capped at the page's [MAX_SURCHARGE_CAP_NEW_REGIME];
    the illustrative amount is the income times that rate. *)
Theorem surcharge_page_rate_agrees_with_engine (income : Q) :
  SurchargePage.rate (SurchargePage.calculateSurcharge income)
  == tierRate income Old
  /\ tierRate income New
     == Qmin (SurchargePage.rate (SurchargePage.calculateSurcharge income))
          SurchargePage.MAX_SURCHARGE_CAP_NEW_REGIME
  /\ SurchargePage.amount (SurchargePage.calculateSurcharge income)
     == income * tierRate income Old.
Proof.
  assert (H : SurchargePage.rate (SurchargePage.calculateSurcharge income)
              == tierRate income Old).
  { cbv [SurchargePage.calculateSurcharge SurchargePage.rate Qgt_bool
         Qlt_bool].
    destruct (tierRate_cases income Old)
      as [[? Hr]|[[? Hr]|[[? Hr]|[[? Hr]|[? Hr]]]]]; rewrite Hr;
      repeat (split_Qle; cbv [negb]); lra. }
  split; [ exact H | ]. split.
  - rewrite H. unfold SurchargePage.MAX_SURCHARGE_CAP_NEW_REGIME.
    destruct (tierRate_cases income Old)
      as [[? Ho]|[[? Ho]|[[? Ho]|[[? Ho]|[? Ho]]]]];
    destruct (tierRate_cases income New)
      as [[? Hn]|[[? Hn]|[[? Hn]|[[? Hn]|[? Hn]]]]];
    try (exfalso; lra); rewrite Ho, Hn; split_max; lra.
  - change (SurchargePage.amount (SurchargePage.calculateSurcharge income))
      with (income
            * SurchargePage.rate (SurchargePage.calculateSurcharge income)).
    rewrite H. reflexivity.
Qed.

(** * The deduction estimators *)

Ltac split_if :=
  match goal with
  | |- context [if ?b then _ else _] => destruct b eqn:?
  end.

Lemma parseFloat_nonneg (s : string) (q : Q) :
  Text.parseFloat s = Some q -> 0 <= q.
Proof.
  unfold Text.parseFloat.
  destruct (Text.takeDigits s) as [whole rest].
  set (frac := match rest with
               | EmptyString => nil
               | String c rest' =>
                   if Text.isDot c then fst (Text.takeDigits rest') else nil
               end).
  clearbody frac.
  assert (H : 0 <= inject_Z (Z.of_N (Text.digitsValue whole))
                   + (Z.of_N (Text.digitsValue frac)
                      # Pos.pow 10 (Pos.of_nat (List.length frac)))).
  { apply Qle_trans with (0 + 0); [ lra | ].
    apply Qplus_le_compat.
    - change 0 with (inject_Z 0). rewrite <- Zle_Qle. lia.
    - unfold Qle. cbn [Qnum Qden]. lia. }
  destruct whole, frac; intros E; try discriminate;
    injection E as <-; exact H.
Qed.

Lemma prefix_app_l (a b s : string) :
  String.prefix (a ++ b) s = true -> String.prefix a s = true.
Proof.
  revert s. induction a as [|c a IH]; intros s H; [ destruct s; reflexivity | ].
  destruct s as [|c' s]; cbn in H |- *; [ discriminate | ].
  destruct (Ascii.ascii_dec c c'); [ apply IH; exact H | discriminate ].
Qed.

(** A text that includes a needle includes every head of the needle. *)
Lemma includes_app_l (a b s : string) :
  Text.includes (a ++ b) s = true -> Text.includes a s = true.
Proof.
  induction s as [|c s IH]; cbn [Text.includes]; intros H.
  - apply orb_true_iff in H. destruct H as [H|H]; [ | discriminate ].
    apply prefix_app_l in H. rewrite H. reflexivity.
  - apply orb_true_iff in H. apply orb_true_iff.
    destruct H as [H|H]; [ left; eapply prefix_app_l; exact H
                         | right; apply IH; exact H ].
Qed.

Lemma flow_forEach_add (total : Q) (d : string) :
  SuggestionsFlow.forEachDeduction total d
  == total + SuggestionsFlow.forEachDeduction 0 d.
Proof.
  unfold SuggestionsFlow.forEachDeduction.
  destruct (map Text.trim (Text.split ":" d)) as [|p0 [|p1 [|p2 r]]];
    try destruct (Text.parseFloat (Text.keepDigitsAndDots p1));
    repeat split_if; lra.
Qed.

Lemma flow_forEach_nonneg (d : string) :
  0 <= SuggestionsFlow.forEachDeduction 0 d.
Proof.
  unfold SuggestionsFlow.forEachDeduction.
  destruct (map Text.trim (Text.split ":" d)) as [|p0 [|p1 [|p2 r]]];
    try destruct (Text.parseFloat (Text.keepDigitsAndDots p1)) as [a|] eqn:E;
    try (apply parseFloat_nonneg in E);
    repeat split_if; repeat split_max; lra.
Qed.

(** The sum of what the entries contribute. *)
Lemma flow_fold_sum (l : list string) (total : Q) :
  fold_left SuggestionsFlow.forEachDeduction l total
  == total
     + fold_right (fun d acc => SuggestionsFlow.forEachDeduction 0 d + acc)
         0 l.
Proof.
  revert total. induction l as [|d l IH]; intros total; cbn [fold_left fold_right].
  - lra.
  - rewrite IH, flow_forEach_add. lra.
Qed.

Lemma flow_sum_nonneg (l : list string) :
  0 <= fold_right (fun d acc => SuggestionsFlow.forEachDeduction 0 d + acc)
         0 l.
Proof.
  induction l as [|d l IH]; cbn [fold_right]; [ lra | ].
  pose proof (flow_forEach_nonneg d). lra.
Qed.



Lemma flow_estimate_nonneg (s : string) :
  0 <= SuggestionsFlow.estimateTotalDeductions s.
Proof.
  unfold SuggestionsFlow.estimateTotalDeductions.
  pose proof (flow_fold_sum (map Text.trim (Text.split "," s)) 0) as E.
  pose proof (flow_sum_nonneg (map Text.trim (Text.split "," s))) as H.
  split_if; lra.
Qed.

Lemma report_forEach_add (total : Q) (covered : bool) (d : string) :
  fst (ReportPage.forEachDeduction (total, covered) d)
  == total + fst (ReportPage.forEachDeduction (0, false) d)
  /\ snd (ReportPage.forEachDeduction (total, covered) d)
     = covered || snd (ReportPage.forEachDeduction (0, false) d).
Proof.
  unfold ReportPage.forEachDeduction.
  destruct (map Text.trim (Text.split ":" d)) as [|p0 [|p1 [|p2 r]]];
    try destruct (Text.parseFloat (Text.keepDigitsAndDots p1));
    repeat split_if; cbn [fst snd];
    (split; [ lra | destruct covered; reflexivity ]).
Qed.

Lemma report_forEach_nonneg (d : string) :
  0 <= fst (ReportPage.forEachDeduction (0, false) d).
Proof.
  unfold ReportPage.forEachDeduction.
  destruct (map Text.trim (Text.split ":" d)) as [|p0 [|p1 [|p2 r]]];
    try destruct (Text.parseFloat (Text.keepDigitsAndDots p1)) as [a|] eqn:E;
    try (apply parseFloat_nonneg in E);
    repeat split_if; cbn [fst]; repeat split_max; lra.
Qed.

Lemma report_fold_sum (l : list string) (total : Q) (covered : bool) :
  fst (fold_left ReportPage.forEachDeduction l (total, covered))
  == total
     + fold_right
         (fun d acc => fst (ReportPage.forEachDeduction (0, false) d) + acc)
         0 l
  /\ snd (fold_left ReportPage.forEachDeduction l (total, covered))
     = covered
       || existsb (fun d => snd (ReportPage.forEachDeduction (0, false) d)) l.
Proof.
  revert total covered.
  induction l as [|d l IH]; intros total covered;
    cbn [fold_left fold_right existsb fst snd].
  - split; [ lra | destruct covered; reflexivity ].
  - destruct (ReportPage.forEachDeduction (total, covered) d) as [t' c'] eqn:E.
    destruct (report_forEach_add total covered d) as [H1 H2].
    rewrite E in H1, H2. cbn [fst snd] in H1, H2.
    destruct (IH t' c') as [I1 I2]. split.
    + rewrite I1, H1. lra.
    + rewrite I2, H2. symmetry. apply orb_assoc.
Qed.

Lemma report_sum_nonneg (l : list string) :
  0 <= fold_right
         (fun d acc => fst (ReportPage.forEachDeduction (0, false) d) + acc)
         0 l.
Proof.
  induction l as [|d l IH]; cbn [fold_right]; [ lra | ].
  pose proof (report_forEach_nonneg d). lra.
Qed.

Lemma report_estimate_nonneg (formIncome : option Q) (s : string) :
  0 <= ReportPage.estimateTotalDeductions formIncome s.
Proof.
  unfold ReportPage.estimateTotalDeductions.
  split_if; [ lra | ].
  destruct (report_fold_sum (map Text.trim (Text.split "," s)) 0 false)
    as [E _].
  pose proof (report_sum_nonneg (map Text.trim (Text.split "," s))) as H.
  destruct (fold_left ReportPage.forEachDeduction
              (map Text.trim (Text.split "," s)) (0, false)) as [t c].
  cbn [fst] in E. split_if; lra.
Qed.

(** X11. Neither deduction estimator ever returns a negative total,
    whatever the text: a minus sign in an amount is dropped with every
    other character that is not a digit or a dot, and what each entry adds
    is an amount read that way, a cap, or nothing. *)
Theorem deduction_estimates_never_negative (formIncome : option Q)
    (deductions : string) :
  0 <= SuggestionsFlow.estimateTotalDeductions deductions
  /\ 0 <= ReportPage.estimateTotalDeductions formIncome deductions.
Proof.
  split; [ apply flow_estimate_nonneg | apply report_estimate_nonneg ].
Qed.

Lemma includes_empty_false (needle : string) :
  needle <> EmptyString -> Text.includes needle EmptyString = false.
Proof.
  intros H. destruct needle; [ congruence | reflexivity ].
Qed.

(** X12. An entry that is not of the form [section: amount] and mentions
    80CCD(1B), in any letter case, is counted by both estimators as the
    150,000 of section 80C, whose test comes first and matches it: the
    50,000 meant for 80CCD(1B) is reached only through "nps". *)
Theorem entry_80ccd1b_counts_as_80c (total : Q) (covered : bool)
    (d : string) :
  List.length (Text.split ":" d) <> 2%nat ->
  Text.includes "80ccd(1b)" (Text.toLowerCase d) = true ->
  SuggestionsFlow.forEachDeduction total d = total + 150000
  /\ ReportPage.forEachDeduction (total, covered) d
     = (total + 150000, covered).
Proof.
  intros Hlen Hinc.
  assert (H80c : Text.includes "80c" (Text.toLowerCase d) = true)
    by (apply (includes_app_l "80c" "cd(1b)"); exact Hinc).
  assert (Hd : String.eqb d "" = false).
  { destruct d; [ cbn in Hinc; discriminate | reflexivity ]. }
  unfold SuggestionsFlow.forEachDeduction, ReportPage.forEachDeduction.
  rewrite <- (length_map Text.trim) in Hlen.
  destruct (map Text.trim (Text.split ":" d)) as [|p0 [|p1 [|p2 r]]];
    try (exfalso; apply Hlen; reflexivity);
    rewrite ?Hd, H80c; split; reflexivity.
Qed.

Lemma entry_80ccd1b_counts_as_80c_witness :
  (List.length (Text.split ":" "NPS 80CCD(1B)") <> 2%nat
   /\ Text.includes "80ccd(1b)" (Text.toLowerCase "NPS 80CCD(1B)") = true)
  /\ SuggestionsFlow.forEachDeduction 0 "NPS 80CCD(1B)" = 0 + 150000
  /\ ReportPage.forEachDeduction (0, false) "NPS 80CCD(1B)"
     = (0 + 150000, false).
Proof.
  assert (H1 : List.length (Text.split ":" "NPS 80CCD(1B)") <> 2%nat)
    by (vm_compute; discriminate).
  assert (H2 : Text.includes "80ccd(1b)" (Text.toLowerCase "NPS 80CCD(1B)")
               = true) by reflexivity.
  split; [ split; assumption | ].
  apply (entry_80ccd1b_counts_as_80c 0 false "NPS 80CCD(1B)" H1 H2).
Defined.









(** * The estimators and the engine together *)

Lemma old_totalTax_antitone (g d1 d2 s1 s2 : Q) (k1 k2 : nat) :
  d1 <= d2 ->
  SurchargeSpec (surchargeBase g Old)
    (afterRebate (taxableOf g d1 Old) Old) Old s1 k1 ->
  SurchargeSpec (surchargeBase g Old)
    (afterRebate (taxableOf g d2 Old) Old) Old s2 k2 ->
  totalTax (resultWith g d2 Old s2) <= totalTax (resultWith g d1 Old s1).
Proof.
  intros Hd HS1 HS2. cbn [resultWith totalTax].
  pose proof (afterRebate_mono _ _ Old (taxableOf_anti_deductions g _ _ Hd))
    as Ht.
  pose proof (surcharge_mono_tax _ _ _ _ _ _ _ _ HS2 HS1 Ht) as Hsum.
  apply round_mono. unfold CESS_RATE. lra.
Qed.

(** X14. The suggestions flow counts the standard deduction twice.  Unless
    an entry of the text mentions "standard deduction", the estimate is at
    least 50,000, and the engine then subtracts its own standard deduction
    as well: the taxable income of the old-regime estimate is at most the
    gross income less 100,000. *)
Theorem flow_counts_standard_deduction_twice (income : Q)
    (deductions : string) :
  existsb
    (fun d => Text.includes "standard deduction" (Text.toLowerCase d))
    (map Text.trim (Text.split "," deductions)) = false ->
  50000 <= SuggestionsFlow.estimateTotalDeductions deductions
  /\ exists res,
       fst (SuggestionsFlow.estimatedTaxes income deductions) = Some res
       /\ taxableIncome res <= Qmax 0 (income - 100000).
Proof.
  intros Hno.
  assert (Hest : 50000 <= SuggestionsFlow.estimateTotalDeductions deductions).
  { unfold SuggestionsFlow.estimateTotalDeductions. rewrite Hno. cbn [negb].
    pose proof (flow_fold_sum (map Text.trim (Text.split "," deductions)) 0).
    pose proof (flow_sum_nonneg (map Text.trim (Text.split "," deductions))).
    lra. }
  split; [ exact Hest | ].
  cbv [SuggestionsFlow.estimatedTaxes fst].
  set (d := SuggestionsFlow.estimateTotalDeductions deductions) in *.
  clearbody d.
  destruct (calculateTaxPayable_spec income d Old) as [s [k [E _]]].
  exists (resultWith income d Old s). split; [ exact E | ].
  cbn [resultWith taxableIncome]. unfold taxableOf.
  destruct (stdDedIncome_cases income) as [[? ->]|[? ->]];
    repeat split_max; lra.
Qed.

Lemma flow_counts_standard_deduction_twice_witness :
  existsb
    (fun d => Text.includes "standard deduction" (Text.toLowerCase d))
    (map Text.trim (Text.split "," "80C: 150000, HRA")) = false
  /\ 50000 <= SuggestionsFlow.estimateTotalDeductions "80C: 150000, HRA"
  /\ exists res,
       fst (SuggestionsFlow.estimatedTaxes 1200000 "80C: 150000, HRA")
       = Some res
       /\ taxableIncome res <= Qmax 0 (1200000 - 100000).
Proof.
  assert (H : existsb
    (fun d => Text.includes "standard deduction" (Text.toLowerCase d))
    (map Text.trim (Text.split "," "80C: 150000, HRA")) = false)
    by reflexivity.
  split; [ exact H | ].
  apply (flow_counts_standard_deduction_twice 1200000 "80C: 150000, HRA" H).
Defined.

(** X15. Whatever the text of the deductions, the old-regime tax that the
    report page and the suggestions flow compute with their estimate is
    never more than the old-regime tax with no deductions at all; and both
    compute the new-regime tax with deductions 0. *)
Theorem estimated_deductions_never_raise_tax (formIncome : option Q)
    (income : Q) (deductions : string) :
  exists base flow report,
    calculateTaxPayable income 0 Old = Some base
    /\ fst (SuggestionsFlow.estimatedTaxes income deductions) = Some flow
    /\ fst (ReportPage.calculatedTaxes formIncome income deductions)
       = Some report
    /\ totalTax flow <= totalTax base
    /\ totalTax report <= totalTax base
    /\ snd (SuggestionsFlow.estimatedTaxes income deductions)
       = calculateTaxPayable income 0 New
    /\ snd (ReportPage.calculatedTaxes formIncome income deductions)
       = calculateTaxPayable income 0 New.
Proof.
  cbv [SuggestionsFlow.estimatedTaxes ReportPage.calculatedTaxes fst snd].
  pose proof (flow_estimate_nonneg deductions) as Hf.
  pose proof (report_estimate_nonneg formIncome deductions) as Hr.
  set (df := SuggestionsFlow.estimateTotalDeductions deductions) in *.
  set (dr := ReportPage.estimateTotalDeductions formIncome deductions) in *.
  clearbody df dr.
  destruct (calculateTaxPayable_spec income 0 Old) as [s0 [k0 [E0 HS0]]].
  destruct (calculateTaxPayable_spec income df Old) as [sf [kf [Ef HSf]]].
  destruct (calculateTaxPayable_spec income dr Old) as [sr [kr [Er HSr]]].
  exists (resultWith income 0 Old s0), (resultWith income df Old sf),
         (resultWith income dr Old sr).
  repeat (split; [ assumption | ]).
  split; [ eapply old_totalTax_antitone; eassumption | ].
  split; [ eapply old_totalTax_antitone; eassumption | ].
  split; reflexivity.
Qed.

(** * Slab tables in general *)

Lemma shares_beyond_income (x lo : Q) (table : list Slab) :
  x <= lo -> contiguous lo table -> sumOfShares x table == 0.
Proof.
  revert lo. induction table as [|slab rest IH]; intros lo Hx Hc;
    cbn [sumOfShares fold_right]; [ reflexivity | ].
  destruct Hc as [Hmin Hrest].
  assert (Hs : slabShare x slab == 0).
  { unfold slabShare. destruct (rangeMax slab) as [m|]; cbn [minNum];
      repeat split_max; try lra;
      match goal with H : ?m == _ |- context [?m] => rewrite H end; lra. }
  destruct (rangeMax slab) as [m|].
  - destruct Hrest as [Hlo Hrest].
    change (slabShare x slab + sumOfShares x rest == 0).
    rewrite (IH m), Hs; [ lra | lra | exact Hrest ].
  - subst rest. cbn [fold_right]. lra.
Qed.

Lemma slabLoop_shares (x lo : Q) (table : list Slab) (tax processed : Q) :
  processed == lo -> contiguous lo table ->
  slabLoop x table tax processed == tax + sumOfShares x table.
Proof.
  revert lo tax processed.
  induction table as [|slab rest IH]; intros lo tax processed Hp Hc;
    cbn [slabLoop sumOfShares fold_right]; [ lra | ].
  change (fold_right (fun slab acc => slabShare x slab + acc) 0 rest)
    with (sumOfShares x rest).
  change (if Qeq_bool (rangeMin slab) 0 then 0 else rangeMin slab - 1)
    with (slabMinOf slab).
  pose proof Hc as [Hmin Hrest].
  destruct (Qle_bool x (slabMinOf slab)) eqn:Hbreak.
  - apply Qle_bool_iff in Hbreak.
    pose proof (shares_beyond_income x lo (slab :: rest) ltac:(lra) Hc) as Hz.
    cbn [sumOfShares fold_right] in Hz.
    change (fold_right (fun slab acc => slabShare x slab + acc) 0 rest)
      with (sumOfShares x rest) in Hz.
    lra.
  - apply Qle_bool_false in Hbreak.
    assert (Hshare :
      (if Qgt_bool (minNum x (rangeMax slab) - Qmax processed (slabMinOf slab)) 0
       then tax + (minNum x (rangeMax slab)
                   - Qmax processed (slabMinOf slab)) * rate slab
       else tax) == tax + slabShare x slab).
    { unfold slabShare, Qgt_bool, Qlt_bool.
      assert (Hm : Qmax processed (slabMinOf slab) == slabMinOf slab)
        by (apply Q.max_r; lra).
      set (inc := minNum x (rangeMax slab)) in *. clearbody inc.
      split_Qle; cbv [negb]; revert Hm; repeat split_max; intros; nra. }
    destruct (rangeMax slab) as [m|] eqn:Hmax.
    + destruct Hrest as [Hlo Hrest].
      destruct (Qle_bool x m) eqn:Hlast.
      * apply Qle_bool_iff in Hlast.
        rewrite (shares_beyond_income x m rest Hlast Hrest), Hshare. lra.
      * rewrite (IH m _ m (Qeq_refl m) Hrest), Hshare. lra.
    + subst rest. cbn [sumOfShares fold_right]. rewrite Hshare. lra.
Qed.

Lemma sumOfShares_nonneg (x : Q) (table : list Slab) :
  Forall (fun slab => 0 <= rate slab) table -> 0 <= sumOfShares x table.
Proof.
  induction 1 as [|slab rest Hr _ IH]; cbn [sumOfShares fold_right];
    [ lra | ].
  change (fold_right (fun slab acc => slabShare x slab + acc) 0 rest)
    with (sumOfShares x rest).
  assert (0 <= slabShare x slab).
  { unfold slabShare. apply Qmult_le_0_compat; [ exact Hr | apply Q.le_max_l ]. }
  lra.
Qed.

(** X16. For every table of slabs that follow one another from 0 on, with
    rates that are not negative, [calculateSlabTax] is the sum over the
    slabs of the rate times the part of the income inside the slab: the
    loop with its two exits neither skips nor taxes twice any part of the
    income.  The two tables of FY 2024-25 are such tables. *)
Theorem slab_tax_is_sum_of_shares (x : Q) (table : list Slab) :
  contiguous 0 table ->
  Forall (fun slab => 0 <= rate slab) table ->
  calculateSlabTax x table == sumOfShares x table.
Proof.
  intros Hc Hr. unfold calculateSlabTax.
  rewrite (slabLoop_shares x 0 table 0 0 (Qeq_refl 0) Hc).
  pose proof (sumOfShares_nonneg x table Hr).
  rewrite Q.max_r; lra.
Qed.

Lemma slab_tax_is_sum_of_shares_witness :
  (contiguous 0 (slabs (newRegime taxDataFY2024_25))
   /\ Forall (fun slab => 0 <= rate slab) (slabs (newRegime taxDataFY2024_25)))
  /\ (contiguous 0 (slabs (oldRegime taxDataFY2024_25))
      /\ Forall (fun slab => 0 <= rate slab)
           (slabs (oldRegime taxDataFY2024_25)))
  /\ calculateSlabTax 1150000 (slabs (newRegime taxDataFY2024_25))
     == sumOfShares 1150000 (slabs (newRegime taxDataFY2024_25))
  /\ calculateSlabTax 1150000 (slabs (oldRegime taxDataFY2024_25))
     == sumOfShares 1150000 (slabs (oldRegime taxDataFY2024_25)).
Proof.
  assert (Hn : contiguous 0 (slabs (newRegime taxDataFY2024_25)))
    by (cbn; repeat split; try reflexivity; lra).
  assert (Hnr : Forall (fun slab => 0 <= rate slab)
                  (slabs (newRegime taxDataFY2024_25)))
    by (repeat constructor; cbn; lra).
  assert (Ho : contiguous 0 (slabs (oldRegime taxDataFY2024_25)))
    by (cbn; repeat split; try reflexivity; lra).
  assert (Hor : Forall (fun slab => 0 <= rate slab)
                  (slabs (oldRegime taxDataFY2024_25)))
    by (repeat constructor; cbn; lra).
  split; [ split; assumption | ].
  split; [ split; assumption | ].
  split.
  - apply (slab_tax_is_sum_of_shares 1150000
             (slabs (newRegime taxDataFY2024_25)) Hn Hnr).
  - apply (slab_tax_is_sum_of_shares 1150000
             (slabs (oldRegime taxDataFY2024_25)) Ho Hor).
Defined.

(** * Monotonicity in the income, new regime below the second threshold *)

Lemma surcharge_mono_income_new_low (b1 b2 t s1 s2 : Q) (k1 k2 : nat) :
  SurchargeSpec b1 t New s1 k1 -> SurchargeSpec b2 t New s2 k2 ->
  b1 <= b2 -> b2 <= 10000000 -> 0 <= t ->
  s1 <= s2.
Proof.
  intros HS1 HS2 Hb Hcap Ht.
  pose proof (surcharge_le_rate _ _ _ _ _ HS1 Ht) as U1.
  pose proof (fun T HT HW => surcharge_le_relief T _ _ _ _ _ HS1 HT HW) as W1.
  pose proof (SurchargeSpec_nonneg _ _ _ _ _ HS2) as Hs2.
  clear HS1.
  destruct (tierRate_cases b1 New)
    as [[? R1]|[[? R1]|[[? R1]|[[? R1]|[? R1]]]]];
    rewrite R1 in U1; clear R1; try (exfalso; lra); try lra.
  destruct HS2 as [Ht0 Hs | Ht0 Hw Hs | T' Ht0 HT' Hw Hc Hs
                  | T' Ht0 HT' Hw Hc Hs].
  - lra.
  - destruct (tierRate_cases b2 New)
      as [[? R2]|[[? R2]|[[? R2]|[[? R2]|[? R2]]]]];
      rewrite R2 in Hs; try (exfalso; lra); lra.
  - destruct (tierRate_cases b2 New)
      as [[? R2]|[[? R2]|[[? R2]|[[? R2]|[? R2]]]]];
      rewrite R2 in Hs; try (exfalso; lra); lra.
  - assert (HW1 : inWindow T' b1).
    { destruct Hw as [Hw1 Hw2].
      repeat (destruct HT' as [<- | HT']; [ | ]); try destruct HT';
        split; lra. }
    specialize (W1 T' HT' HW1). destruct Hw.
    revert Hs W1; repeat split_max; intros; lra.
Qed.

(** X17. In the new regime the total tax does not decrease when the gross
    income increases, as long as the higher income is at most 10,050,000:
    the fall of the tax past a surcharge threshold only begins at the
    second threshold. *)
Theorem new_regime_income_monotone_below_second_threshold (g1 g2 d : Q) :
  g1 <= g2 -> g2 <= 10050000 ->
  exists r1 r2,
    calculateTaxPayable g1 d New = Some r1
    /\ calculateTaxPayable g2 d New = Some r2
    /\ totalTax r1 <= totalTax r2.
Proof.
  intros Hg Hcap.
  destruct (calculateTaxPayable_spec g1 d New) as [s1 [k1 [E1 HS1]]].
  destruct (calculateTaxPayable_spec g2 d New) as [s2 [k2 [E2 HS2]]].
  exists (resultWith g1 d New s1), (resultWith g2 d New s2).
  split; [ exact E1 | ]. split; [ exact E2 | ].
  cbn [resultWith totalTax]. cbn [surchargeBase] in HS1, HS2.
  set (t1 := afterRebate (taxableOf g1 d New) New) in *.
  set (t2 := afterRebate (taxableOf g2 d New) New) in *.
  assert (Ht : t1 <= t2)
    by (apply afterRebate_mono, taxableOf_mono_income; exact Hg).
  pose proof (stdDedIncome_mono g1 g2 Hg) as Hb.
  assert (Hb2 : stdDedIncome g2 <= 10000000).
  { destruct (stdDedIncome_cases g2) as [[? ->]|[? ->]];
      repeat split_max; lra. }
  destruct (SurchargeSpec_total (stdDedIncome g2) t1 New) as [s3 [k3 HS3]].
  pose proof (surcharge_mono_income_new_low _ _ t1 s1 s3 k1 k3 HS1 HS3 Hb Hb2
                (afterRebate_nonneg _ _)) as H13.
  pose proof (surcharge_mono_tax _ _ _ _ _ _ _ _ HS3 HS2 Ht) as H32.
  apply round_mono. unfold CESS_RATE. lra.
Qed.

Lemma new_regime_income_monotone_below_second_threshold_witness :
  (5040000 <= 5100000 /\ 5100000 <= 10050000)
  /\ exists r1 r2,
       calculateTaxPayable 5040000 0 New = Some r1
       /\ calculateTaxPayable 5100000 0 New = Some r2
       /\ totalTax r1 <= totalTax r2.
Proof.
  assert (Hg : 5040000 <= 5100000) by lra.
  assert (Hc : 5100000 <= 10050000) by lra.
  split; [ split; assumption | ].
  apply (new_regime_income_monotone_below_second_threshold
           5040000 5100000 0 Hg Hc).
Defined.

(** * Crossing a surcharge tier in the new regime *)

(** X19. In the new regime the surcharge tier changes where the income
    after the standard deduction passes a threshold [T], that is, at the
    gross income [T + 50000].  Past that point, for every increment within
    the relief window, the tax before cess rises by at most the increment,
    and the total tax by at most the increment, the cess on it and one
    unit of rounding. *)
Theorem new_regime_relief_across_tier (T d eps : Q) :
  In T thresholds -> 0 <= eps -> eps <= T * 0.05 ->
  exists r1 r2,
    calculateTaxPayable (T + 50000) d New = Some r1
    /\ calculateTaxPayable (T + 50000 + eps) d New = Some r2
    /\ taxBeforeCess r2 <= taxBeforeCess r1 + eps
    /\ totalTax r2 <= totalTax r1 + eps + (eps * CESS_RATE + 1).
Proof.
  intros HT He0 He1.
  destruct (calculateTaxPayable_spec (T + 50000) d New) as [s1 [k1 [E1 HS1]]].
  destruct (calculateTaxPayable_spec (T + 50000 + eps) d New)
    as [s2 [k2 [E2 HS2]]].
  exists (resultWith (T + 50000) d New s1),
         (resultWith (T + 50000 + eps) d New s2).
  split; [ exact E1 | ]. split; [ exact E2 | ].
  cbn [resultWith taxBeforeCess totalTax]. cbn [surchargeBase] in HS1, HS2.
  assert (Hg : 5000000 <= T)
    by (repeat (destruct HT as [<- | HT]; [ lra | ]); destruct HT).
  pose proof (taxableOf_above_threshold (T + 50000) d New ltac:(lra)
                ltac:(discriminate)) as Hx1.
  pose proof (taxableOf_above_threshold (T + 50000 + eps) d New ltac:(lra)
                ltac:(discriminate)) as Hx2.
  pose proof (afterRebate_top (taxableOf (T + 50000) d New) New ltac:(lra))
    as Ht1.
  pose proof (afterRebate_top (taxableOf (T + 50000 + eps) d New) New
                ltac:(lra)) as Ht2.
  pose proof (stdDedIncome_above (T + 50000) ltac:(lra)) as Hb1.
  pose proof (stdDedIncome_above (T + 50000 + eps) ltac:(lra)) as Hb2.
  cbv beta iota in Ht1, Ht2.
  set (t1 := afterRebate (taxableOf (T + 50000) d New) New) in *.
  set (t2 := afterRebate (taxableOf (T + 50000 + eps) d New) New) in *.
  set (b1 := stdDedIncome (T + 50000)) in *.
  set (b2 := stdDedIncome (T + 50000 + eps)) in *.
  clearbody t1 t2 b1 b2.
  assert (Hmain : t2 + s2 <= t1 + s1 + eps).
  { assert (Ht20 : 0 <= t2) by lra.
    pose proof (surcharge_le_rate _ _ _ _ _ HS2 Ht20) as U2.
    pose proof (fun HW => surcharge_le_relief T _ _ _ _ _ HS2 HT HW) as W2.
    clear HS2.
    assert (Hs1 : s1 == t1 * tierRate b1 New).
    { destruct HS1 as [Ht0 Hs | Ht0 Hw Hs | T' Ht0 HT' Hw Hc Hs
                      | T' Ht0 HT' Hw Hc Hs].
      - exfalso. lra.
      - exact Hs.
      - exact Hs.
      - exfalso. destruct Hw as [W1 W2'].
        repeat (destruct HT as [<- | HT]; [ | ]); try destruct HT;
          repeat (destruct HT' as [<- | HT']; [ | ]); try destruct HT'; lra. }
    clear HS1.
    destruct (Qlt_le_dec T b2) as [Hin|Hout].
    - assert (HW : inWindow T b2) by (split; lra).
      specialize (W2 HW).
      destruct (tierRate_cases b1 New)
        as [[? R1]|[[? R1]|[[? R1]|[[? R1]|[? R1]]]]];
        rewrite R1 in Hs1; clear R1;
        repeat (destruct HT as [<- | HT]; [ | ]); try destruct HT;
        try (exfalso; lra);
        eval_thresholdTax; revert W2; repeat split_max; intros; lra.
    - clear W2.
      destruct (tierRate_cases b1 New)
        as [[? R1]|[[? R1]|[[? R1]|[[? R1]|[? R1]]]]];
        rewrite R1 in Hs1; clear R1;
      destruct (tierRate_cases b2 New)
        as [[? R2]|[[? R2]|[[? R2]|[[? R2]|[? R2]]]]];
        rewrite R2 in U2; clear R2;
        try (exfalso; lra); lra. }
  split; [ exact Hmain | ].
  set (a1 := t1 + s1) in *. set (a2 := t2 + s2) in *.
  pose proof (round_near (a1 + a1 * CESS_RATE)) as [L1 _].
  pose proof (round_near (a2 + a2 * CESS_RATE)) as [_ U2].
  unfold CESS_RATE in *. lra.
Qed.

Lemma new_regime_relief_across_tier_witness :
  (In 10000000 thresholds /\ 0 <= 100 /\ 100 <= 10000000 * 0.05)
  /\ exists r1 r2,
       calculateTaxPayable (10000000 + 50000) 0 New = Some r1
       /\ calculateTaxPayable (10000000 + 50000 + 100) 0 New = Some r2
       /\ taxBeforeCess r2 <= taxBeforeCess r1 + 100
       /\ totalTax r2 <= totalTax r1 + 100 + (100 * CESS_RATE + 1).
Proof.
  assert (HT : In 10000000 thresholds) by (right; left; reflexivity).
  assert (H0 : 0 <= 100) by lra.
  assert (H1 : 100 <= 10000000 * 0.05) by lra.
  split; [ repeat split; assumption | ].
  apply (new_regime_relief_across_tier 10000000 0 100 HT H0 H1).
Defined.

(** * A text that names no deduction *)

Lemma lowerChar_inv (c l : ascii) :
  Text.lowerChar c = l -> c = l \/ Text.upperChar l = c.
Proof.
  intros <-.
  destruct c as [[] [] [] [] [] [] [] []]; cbv; auto.
Qed.

(** X20. The two estimators disagree on a text that names no deduction.
    For the empty text and for "n/a" in any letter case the report page
    estimates 0, whatever the income, while the suggestions flow estimates
    the 50,000 of the standard deduction. *)
Theorem estimators_disagree_on_not_applicable (formIncome : option Q)
    (s : string) :
  s = EmptyString \/ Text.toLowerCase s = "n/a"%string ->
  ReportPage.estimateTotalDeductions formIncome s = 0
  /\ SuggestionsFlow.estimateTotalDeductions s == 50000.
Proof.
  intros H. split.
  - unfold ReportPage.estimateTotalDeductions.
    destruct H as [-> | H]; [ reflexivity | ].
    rewrite H. rewrite orb_true_r. reflexivity.
  - destruct H as [-> | H]; [ vm_compute; reflexivity | ].
    destruct s as [|c1 [|c2 [|c3 [|c4 s]]]]; try discriminate.
    cbn [Text.toLowerCase Text.mapChars] in H.
    injection H as H1 H2 H3.
    destruct (lowerChar_inv _ _ H1) as [-> | <-];
    destruct (lowerChar_inv _ _ H2) as [-> | <-];
    destruct (lowerChar_inv _ _ H3) as [-> | <-];
    vm_compute; reflexivity.
Qed.

Lemma estimators_disagree_on_not_applicable_witness :
  ("N/A"%string = EmptyString \/ Text.toLowerCase "N/A" = "n/a"%string)
  /\ ReportPage.estimateTotalDeductions (Some 800000) "N/A" = 0
  /\ SuggestionsFlow.estimateTotalDeductions "N/A" == 50000.
Proof.
  assert (H : "N/A"%string = EmptyString
              \/ Text.toLowerCase "N/A" = "n/a"%string)
    by (right; reflexivity).
  split; [ exact H | ].
  apply (estimators_disagree_on_not_applicable (Some 800000) "N/A" H).
Defined.
